(** * Document analysis backend: ingestion, validation and user statistics

    A shallow embedding of the request handlers of the backend
    (detection/serializers.py, detection/views.py, documents/views.py and
    users/services/stats.py) together with the properties of the
    specification that concern them.

    The relational store is an explicit value threaded through every
    operation; Python exceptions are the left summand of the result. *)

From stdpp Require Import gmap strings list.
From Stdlib Require Import ZArith QArith.

Set Warnings "-register-all".
Local Open Scope Z_scope.

(** ** Values exchanged with the web framework *)

(** JSON values: response bodies and the opaque [location] payload.
    Floats (processing time, confidence) are only ever passed through,
    never computed with; they are carried as rationals. *)
Inductive json : Type :=
  | JNull
  | JBool (b : bool)
  | JInt (n : Z)
  | JFloat (q : Q)
  | JStr (s : string)
  | JList (l : list json)
  | JDict (kv : list (string * json)).

(** A key of the request body as the framework's field class hands it to
    a serializer: the key is absent, the field class refuses the raw value
    (wrong JSON type, unparsable number), or it yields a typed value. *)
Inductive field (A : Type) : Type :=
  | Absent
  | Invalid
  | Given (a : A).
Arguments Absent {A}.
Arguments Invalid {A}.
Arguments Given {A} a.

Record Response := mkResponse { status_code : Z; data : json }.

Definition HTTP_201_CREATED : Z := 201.
Definition HTTP_400_BAD_REQUEST : Z := 400.

(** [key in body] for a response body. *)
Definition has_key (k : string) (body : json) : bool :=
  match body with
  | JDict kv => bool_decide (k ∈ kv.*1)
  | _ => false
  end.

(** ** The relational store *)

(** Modelled from the spec: the user model (users/models.py) is not part
    of the sources; the spec gives it five integer counters. *)
Record User := mkUser {
  user_id : Z;
  total_documents_saved : Z;
  total_documents_processed : Z;
  total_documents_shared : Z;
  total_sensitive_items_detected : Z;
  total_non_detected_items : Z
}.

(** Modelled from the spec: documents/models.py is not part of the
    sources.  A document belongs to one user and carries a processed flag. *)
Record Document := mkDocument {
  doc_id : Z;
  doc_user : Z;
  doc_title : string;
  doc_processed : bool
}.

(** Modelled from the spec: a scan is a child of one document, with a risk
    level, a processing time and a timestamp set on creation. *)
Record DocumentScan := mkScan {
  scan_id : Z;
  scan_document : Z;
  scan_risk_level : string;
  scan_processing_time : Q;
  scan_date : Z
}.

(** Modelled from the spec: a sensitive item is a child of one scan. *)
Record SensitiveInformation := mkItem {
  si_scan : Z;
  si_type : string;
  si_confidence : Q;
  si_location : option json;
  si_count : Z;
  si_redacted : bool
}.

(** Tables keyed by primary key where rows are updated in place, and in
    insertion order where rows are only ever appended. [next_scan_id] is
    the auto-increment of the scan table, [now] the clock read by
    [scan_date]. *)
Record Store := mkStore {
  users : gmap Z User;
  documents : gmap Z Document;
  scans : list DocumentScan;
  sensitive_information : list SensitiveInformation;
  next_scan_id : Z;
  now : Z
}.

Definition set_users (us : gmap Z User) (st : Store) : Store :=
  mkStore us (documents st) (scans st) (sensitive_information st)
          (next_scan_id st) (now st).

Definition set_documents (ds : gmap Z Document) (st : Store) : Store :=
  mkStore (users st) ds (scans st) (sensitive_information st)
          (next_scan_id st) (now st).

(** The five counters by name, as [update_fields] names them. *)
Inductive Counter : Type :=
  | documents_saved
  | documents_processed
  | documents_shared
  | sensitive_items_detected
  | non_detected_items.

Definition counter_get (c : Counter) (u : User) : Z :=
  match c with
  | documents_saved => total_documents_saved u
  | documents_processed => total_documents_processed u
  | documents_shared => total_documents_shared u
  | sensitive_items_detected => total_sensitive_items_detected u
  | non_detected_items => total_non_detected_items u
  end.

Definition counter_set (c : Counter) (v : Z) (u : User) : User :=
  match c with
  | documents_saved =>
      mkUser (user_id u) v (total_documents_processed u)
             (total_documents_shared u) (total_sensitive_items_detected u)
             (total_non_detected_items u)
  | documents_processed =>
      mkUser (user_id u) (total_documents_saved u) v
             (total_documents_shared u) (total_sensitive_items_detected u)
             (total_non_detected_items u)
  | documents_shared =>
      mkUser (user_id u) (total_documents_saved u)
             (total_documents_processed u) v
             (total_sensitive_items_detected u) (total_non_detected_items u)
  | sensitive_items_detected =>
      mkUser (user_id u) (total_documents_saved u)
             (total_documents_processed u) (total_documents_shared u) v
             (total_non_detected_items u)
  | non_detected_items =>
      mkUser (user_id u) (total_documents_saved u)
             (total_documents_processed u) (total_documents_shared u)
             (total_sensitive_items_detected u) v
  end.

(** ** Requests as computations *)

Inductive exn : Type :=
  | ValueError (msg : string)
  | DoesNotExist
  | DatabaseError
  | Http404.

(** What a handler runs against: the store, and [request.user], the
    in-memory user object the authentication layer loaded for this
    request.  The object is mutated by attribute assignment and written
    back by [save]; the store is shared by all requests. *)
Record Env := mkEnv { request_user : User; db : Store }.

(** A computation either returns or raises; the environment it leaves
    behind is kept in both cases. *)
Definition M (A : Type) : Type := Env → Env * (exn + A).

Definition ret {A} (a : A) : M A := λ e, (e, inr a).
Definition raise {A} (x : exn) : M A := λ e, (e, inl x).
Definition bind {A B} (m : M A) (k : A → M B) : M B :=
  λ e, match m e with
       | (e', inr a) => k a e'
       | (e', inl x) => (e', inl x)
       end.

Notation "'let*' x ':=' m 'in' k" := (bind m (λ x, k))
  (at level 10, x pattern, m at level 100, k at level 200).
Notation "m ';;;' k" := (bind m (λ _, k))
  (at level 100, k at level 200, right associativity).

Definition get_db : M Store := λ e, (e, inr (db e)).
Definition put_db (st : Store) : M unit :=
  λ e, (mkEnv (request_user e) st, inr tt).
Definition get_user : M User := λ e, (e, inr (request_user e)).
Definition put_user (u : User) : M unit := λ e, (mkEnv u (db e), inr tt).

(** [try: m except Exception as x: h x]. *)
Definition try_except {A} (m : M A) (h : exn → M A) : M A :=
  λ e, match m e with
       | (e', inr a) => (e', inr a)
       | (e', inl x) => h x e'
       end.

(** [@transaction.atomic]: an exception leaving the block rolls the store
    back to its state at entry, and goes on to the caller.  In-memory
    objects are not part of the transaction. *)
Definition atomic {A} (m : M A) : M A :=
  λ e, match m e with
       | (e', inr a) => (e', inr a)
       | (e', inl x) => (mkEnv (request_user e') (db e), inl x)
       end.

(** [user.save(update_fields=fs)]: one UPDATE that sets the listed columns
    of the row with the object's primary key to the object's values.  An
    UPDATE that matches no row raises. *)
Definition write_columns (fs : list Counter) (obj row : User) : User :=
  foldr (λ c r, counter_set c (counter_get c obj) r) row fs.

Definition save_update_fields (fs : list Counter) : M unit :=
  λ e, let u := request_user e in
       match users (db e) !! user_id u with
       | Some row =>
           (mkEnv u (set_users (<[user_id u := write_columns fs u row]>
                                  (users (db e))) (db e)), inr tt)
       | None => (e, inl DatabaseError)
       end.

(** [user.c = F('c') + n; user.save(update_fields=['c'])]: one UPDATE
    [SET c = c + n], evaluated by the store on the row itself.  The
    attribute of the in-memory object is left holding the expression and
    is not read again by any handler, so the object is kept as it is.
    The store is idealised: its integer columns are unbounded, and the
    UPDATE fails only when the row is not there. *)
Definition save_F_expression (c : Counter) (n : Z) : M unit :=
  λ e, let u := request_user e in
       match users (db e) !! user_id u with
       | Some row =>
           (mkEnv u (set_users (<[user_id u :=
                                    counter_set c (counter_get c row + n) row]>
                                  (users (db e))) (db e)), inr tt)
       | None => (e, inl DatabaseError)
       end.

(** ** users/services/stats.py *)

Module UserStatsService.

(** [user.c += n], on the in-memory object. *)
Definition add_attr (c : Counter) (n : Z) : M unit :=
  let* u := get_user in put_user (counter_set c (counter_get c u + n) u).

(** The [try ... except Exception: logger.error(...); raise] wrapper of
    every operation only logs; it is the identity on outcomes. *)
Definition logged {A} (m : M A) : M A := try_except m (λ x, raise x).

Definition increment_documents_saved : M unit :=
  atomic (logged (
    add_attr documents_saved 1 ;;;
    save_update_fields [documents_saved])).

Definition increment_documents_processed : M unit :=
  atomic (logged (
    add_attr documents_processed 1 ;;;
    save_update_fields [documents_processed])).

Definition increment_documents_shared : M unit :=
  atomic (logged (
    add_attr documents_shared 1 ;;;
    save_update_fields [documents_shared])).

Definition increment_sensitive_items_detected (count : Z) : M unit :=
  atomic (logged (
    (if bool_decide (count < 0)
     then raise (ValueError "Count must be positive")
     else ret tt) ;;;
    add_attr sensitive_items_detected count ;;;
    save_update_fields [sensitive_items_detected])).

Definition increment_non_detected_items (count : Z) : M unit :=
  atomic (logged (
    (if bool_decide (count < 0)
     then raise (ValueError "Count must be positive")
     else ret tt) ;;;
    add_attr non_detected_items count ;;;
    save_update_fields [non_detected_items])).

Definition update_stats_after_analysis
    (sensitive_count non_sensitive_count : Z) : M unit :=
  atomic (logged (
    (if bool_decide (sensitive_count < 0) || bool_decide (non_sensitive_count < 0)
     then raise (ValueError "Counts must be non-negative")
     else ret tt) ;;;
    add_attr sensitive_items_detected sensitive_count ;;;
    add_attr non_detected_items non_sensitive_count ;;;
    save_update_fields [sensitive_items_detected; non_detected_items])).

Definition reset_user_stats : M unit :=
  logged (
    let* u := get_user in
    put_user (mkUser (user_id u) 0 0 0 0 0) ;;;
    save_update_fields [documents_saved; documents_processed;
                        documents_shared; sensitive_items_detected;
                        non_detected_items]).

End UserStatsService.

(** ** detection/serializers.py *)

(** One element of [sensitive_items] as it arrives: the four keys the
    serializer declares, and whatever other keys the sender put there
    (for instance [redacted]). *)
Record RawItem := mkRawItem {
  raw_type : field string;
  raw_confidence : field Q;
  raw_location : field json;
  raw_count : field Z;
  raw_other : list (string * json)
}.

(** A validated item: a Python dict in which a key may be absent. *)
Record ItemDict := mkItemDict {
  item_type : option string;
  item_confidence : option Q;
  item_location : option json;
  item_count : option Z
}.

(** The body of [POST /analyze] ([request.data]): the keys either
    serializer reads.  [source] carries the raw string, which is what the
    view compares with ['ml_model']; the serializer's [CharField] trims it
    before it validates it. *)
Record RequestData := mkRequestData {
  document_id : field Z;
  detection_types : field (list string);
  sensitive_items_count : field Z;
  processing_time : field Q;
  source : field string;
  sensitive_items : field (list RawItem)
}.

(** The error map of a serializer: field name and message, in the order
    the fields are declared.  The wording of the framework's own messages
    is not modelled. *)
Definition Errors : Type := list (string * string).

Definition errors_json (errs : Errors) : json :=
  JDict (prod_map id (λ msg, JList [JStr msg]) <$> errs).

(** A required field without a [validate_<name>] method. *)
Definition required_field {A} (name : string) (f : field A) : Errors :=
  match f with
  | Absent => [(name, "This field is required.")]
  | Invalid => [(name, "Not a valid value.")]
  | Given _ => []
  end.

Definition Document_objects_get (id : Z) : M Document :=
  let* st := get_db in
  match documents st !! id with
  | Some d => ret d
  | None => raise DoesNotExist
  end.

(** [document.save()] writes the whole object back under its key. *)
Definition Document_save (d : Document) : M unit :=
  let* st := get_db in
  put_db (set_documents (<[doc_id d := d]> (documents st)) st).

Definition set_processed (b : bool) (d : Document) : Document :=
  mkDocument (doc_id d) (doc_user d) (doc_title d) b.

(** [DocumentScan.objects.create(document=..., risk_level=...,
    processing_time=...)]: the store assigns the key and the date. *)
Definition DocumentScan_objects_create
    (document : Document) (risk_level : string) (time : Q) : M DocumentScan :=
  let* st := get_db in
  let scan := mkScan (next_scan_id st) (doc_id document) risk_level time (now st) in
  put_db (mkStore (users st) (documents st) (scans st ++ [scan])
                  (sensitive_information st) (next_scan_id st + 1) (now st)) ;;;
  ret scan.

(** [SensitiveInformation.objects.create(...)]: one INSERT.  The store is
    idealised: it takes every row, whatever the values of its columns. *)
Definition SensitiveInformation_insert (row : SensitiveInformation) : M unit :=
  let* st := get_db in
  put_db (mkStore (users st) (documents st) (scans st)
                  (sensitive_information st ++ [row]) (next_scan_id st) (now st)).

(** [for x in xs: body x]. *)
Definition for_each {A} (xs : list A) (body : A → M unit) : M unit :=
  foldr (λ x rest, body x ;;; rest) (ret tt) xs.

Module AnalyzeDocumentSerializer.

(** [validate_document_id]: the message of the [ValidationError], or the
    value.  The comparison of model instances is the comparison of their
    primary keys. *)
Definition validate_document_id (value : Z) : M (string + Z) :=
  try_except
    (let* document := Document_objects_get value in
     let* user := get_user in
     if bool_decide (doc_user document ≠ user_id user)
     then ret (inl "You don't have permission to analyze this document")
     else ret (inr value))
    (λ x, match x with
          | DoesNotExist => ret (inl "Document not found")
          | _ => raise x
          end).

(** [is_valid()] with [errors] and [validated_data] as its two outcomes. *)
Definition run_validation (data : RequestData) : M (Errors + Z) :=
  match document_id data with
  | Absent => ret (inl [("document_id", "This field is required.")])
  | Invalid => ret (inl [("document_id", "Not a valid value.")])
  | Given value =>
      let* r := validate_document_id value in
      match r with
      | inl msg => ret (inl [("document_id", msg)])
      | inr v => ret (inr v)
      end
  end.

End AnalyzeDocumentSerializer.

Module SensitiveItemSerializer.

(** [type] and [confidence] are required, [location] is optional and
    [count] has the default 1; keys that are not declared are dropped. *)
Definition run_validation (raw : RawItem) : option ItemDict :=
  match raw_type raw, raw_confidence raw with
  | Given t, Given c =>
      match raw_location raw, raw_count raw with
      | Invalid, _ | _, Invalid => None
      | loc, cnt =>
          Some (mkItemDict (Some t) (Some c)
                  (match loc with Given j => Some j | _ => None end)
                  (match cnt with Given n => Some n | _ => Some 1 end))
      end
  | _, _ => None
  end.

(** [many=True]. *)
Definition run_validation_many (raws : list RawItem) : option (list ItemDict) :=
  mapM run_validation raws.

End SensitiveItemSerializer.

(** What the detection service hands back.  detection_service.py is not
    part of the sources: its result is either a dict with an [error] key
    or the data of a [DetectionResultSerializer]. *)
Record ResultData := mkResultData {
  res_document_id : field Z;
  res_risk_level : field string;
  res_processing_time : field Q;
  res_sensitive_items : field (list RawItem)
}.

Inductive ServiceResults : Type :=
  | ResultsError (msg : string)
  | Results (r : ResultData).

Module DetectionResultSerializer.

Record ValidatedData := mkValidated {
  v_document_id : Z;
  v_risk_level : string;
  v_processing_time : Q;
  v_sensitive_items : list ItemDict
}.

Definition risk_level_choices : list string := ["low"; "medium"; "high"].

Definition check_risk_level (f : field string) : field string :=
  match f with
  | Given s => if bool_decide (s ∈ risk_level_choices) then Given s else Invalid
  | other => other
  end.

Definition check_items (f : field (list RawItem)) : field (list ItemDict) :=
  match f with
  | Given raws =>
      match SensitiveItemSerializer.run_validation_many raws with
      | Some items => Given items
      | None => Invalid
      end
  | Absent => Absent
  | Invalid => Invalid
  end.

Definition errors (data : ResultData) : Errors :=
  required_field "document_id" (res_document_id data) ++
  required_field "risk_level" (check_risk_level (res_risk_level data)) ++
  required_field "processing_time" (res_processing_time data) ++
  required_field "sensitive_items" (check_items (res_sensitive_items data)).

Definition run_validation (data : ResultData) : Errors + ValidatedData :=
  match res_document_id data, check_risk_level (res_risk_level data),
        res_processing_time data, check_items (res_sensitive_items data) with
  | Given d, Given r, Given t, Given items => inr (mkValidated d r t items)
  | _, _, _, _ => inl (errors data)
  end.

(** [SensitiveInformation.objects.create(scan=scan, **item)].  Modelled
    from the spec: of the columns of a sensitive item only [location]
    (optional) and [count] (default 1) may be left out; [redacted] is not
    a key of a validated item and takes the column default, false. *)
Definition SensitiveInformation_objects_create_from
    (scan : DocumentScan) (item : ItemDict) : M unit :=
  match item_type item, item_confidence item with
  | Some t, Some c =>
      SensitiveInformation_insert
        (mkItem (scan_id scan) t c (item_location item)
                (default 1 (item_count item)) false)
  | _, _ => raise DatabaseError
  end.

Definition create (validated_data : ValidatedData) : M DocumentScan :=
  let document_id := v_document_id validated_data in
  let sensitive_items := v_sensitive_items validated_data in
  let* document := Document_objects_get document_id in
  let* scan := DocumentScan_objects_create document
                 (v_risk_level validated_data)
                 (v_processing_time validated_data) in
  for_each sensitive_items (SensitiveInformation_objects_create_from scan) ;;;
  Document_save (set_processed true document) ;;;
  ret scan.

End DetectionResultSerializer.

(** [str.isspace] on one character.  A character of a string stands for
    the code point of its number, which covers the code points below
    256. *)
Definition isspace (a : Ascii.ascii) : bool :=
  let n := Ascii.N_of_ascii a in
  ((9 <=? n) && (n <=? 13) || (28 <=? n) && (n <=? 32)
   || (n =? 133) || (n =? 160))%N.

Fixpoint lstrip (s : string) : string :=
  match s with
  | String a rest => if isspace a then lstrip rest else s
  | EmptyString => EmptyString
  end.

Fixpoint rstrip (s : string) : string :=
  match s with
  | String a rest =>
      match rstrip rest with
      | EmptyString => if isspace a then EmptyString else String a EmptyString
      | kept => String a kept
      end
  | EmptyString => EmptyString
  end.

(** [str.strip()]: the string without its leading and trailing
    whitespace. *)
Definition strip (s : string) : string := rstrip (lstrip s).

Module MLAnalysisPayloadSerializer.

(** [validated_data]; the optional [sensitive_items] key may be absent. *)
Record ValidatedData := mkValidated {
  v_document_id : Z;
  v_detection_types : list string;
  v_sensitive_items_count : Z;
  v_processing_time : Q;
  v_source : string;
  v_sensitive_items : option (list ItemDict)
}.

Definition validate_source (value : string) : string + string :=
  if bool_decide (value ≠ "ml_model")
  then inl "Source must be 'ml_model' for ML payloads"
  else inr value.

(** [source = serializers.CharField()]: the field trims the string
    ([trim_whitespace]), refuses it if nothing is left ([allow_blank] is
    off), and hands the trimmed value to [validate_source]. *)
Definition source_errors (f : field string) : Errors :=
  match f with
  | Given s =>
      if bool_decide (strip s = "")
      then [("source", "This field may not be blank.")]
      else match validate_source (strip s) with
           | inl msg => [("source", msg)]
           | inr _ => []
           end
  | other => required_field "source" other
  end.

(** [required=False]: an absent key is no error. *)
Definition items_errors (f : field (list RawItem)) : Errors :=
  match f with
  | Absent => []
  | Invalid => [("sensitive_items", "Not a valid value.")]
  | Given raws =>
      match SensitiveItemSerializer.run_validation_many raws with
      | Some _ => []
      | None => [("sensitive_items", "Not a valid value.")]
      end
  end.

Definition errors (data : RequestData) : Errors :=
  required_field "document_id" (document_id data) ++
  required_field "detection_types" (detection_types data) ++
  required_field "sensitive_items_count" (sensitive_items_count data) ++
  required_field "processing_time" (processing_time data) ++
  source_errors (source data) ++
  items_errors (sensitive_items data).

Definition validated_items (f : field (list RawItem)) : option (list ItemDict) :=
  match f with
  | Given raws => SensitiveItemSerializer.run_validation_many raws
  | _ => None
  end.

Definition run_validation (data : RequestData) : Errors + ValidatedData :=
  match errors data with
  | [] =>
      match document_id data, detection_types data,
            sensitive_items_count data, processing_time data, source data with
      | Given d, Given ts, Given n, Given t, Given s =>
          inr (mkValidated d ts n t (strip s)
                           (validated_items (sensitive_items data)))
      | _, _, _, _, _ => inl (errors data)
      end
  | errs => inl errs
  end.

(** The risk level of a scan, derived from the count of the payload. *)
Definition risk_level_of (sensitive_items_count : Z) : string :=
  if bool_decide (sensitive_items_count = 0) then "low"
  else if bool_decide (sensitive_items_count ≤ 2) then "medium"
  else "high".

Definition ml_item (scan : DocumentScan) (item : ItemDict) : SensitiveInformation :=
  mkItem (scan_id scan)
         (default "other" (item_type item))
         (default 0%Q (item_confidence item))
         (item_location item)
         (default 1 (item_count item))
         false.

Definition create_ml_analysis_result (validated_data : ValidatedData)
    : M DocumentScan :=
  let document_id := v_document_id validated_data in
  let sensitive_items_count := v_sensitive_items_count validated_data in
  let processing_time := v_processing_time validated_data in
  let sensitive_items := default [] (v_sensitive_items validated_data) in
  let* document := Document_objects_get document_id in
  let risk_level := risk_level_of sensitive_items_count in
  let* scan := DocumentScan_objects_create document risk_level processing_time in
  for_each sensitive_items
    (λ item, SensitiveInformation_insert (ml_item scan item)) ;;;
  Document_save (set_processed true document) ;;;
  ret scan.

End MLAnalysisPayloadSerializer.

(** ** detection/views.py *)

Definition exn_message (x : exn) : string :=
  match x with
  | ValueError msg => msg
  | DoesNotExist => "Document matching query does not exist."
  | DatabaseError => "Save with update_fields did not affect any rows."
  | Http404 => "Not found."
  end.

(** [scan.sensitive_information.all()] and [.count()]: the rows of the
    item table that point at the scan. *)
Definition scan_sensitive_information (scan : DocumentScan) : M (list SensitiveInformation) :=
  let* st := get_db in
  ret (filter (λ si, si_scan si = scan_id scan) (sensitive_information st)).

Definition scan_sensitive_information_count (scan : DocumentScan) : M Z :=
  let* rows := scan_sensitive_information scan in
  ret (Z.of_nat (length rows)).

Definition option_json (o : option json) : json := default JNull o.

Module AnalysisViewSet.

Definition _handle_ml_payload (data : RequestData) : M Response :=
  match MLAnalysisPayloadSerializer.run_validation data with
  | inr validated_data =>
      try_except
        (let* scan :=
           MLAnalysisPayloadSerializer.create_ml_analysis_result validated_data in
         let sensitive_count :=
           MLAnalysisPayloadSerializer.v_sensitive_items_count validated_data in
         (if bool_decide (sensitive_count > 0)
          then save_F_expression sensitive_items_detected sensitive_count
          else save_F_expression non_detected_items 1) ;;;
         let response_data := JDict [
           ("document_id", JInt (scan_document scan));
           ("scan_id", JInt (scan_id scan));
           ("scan_date", JInt (scan_date scan));
           ("sensitive_items_count", JInt sensitive_count);
           ("source", JStr "ml_model");
           ("status", JStr "recorded")
         ] in
         ret (mkResponse HTTP_201_CREATED response_data))
        (λ x, ret (mkResponse HTTP_400_BAD_REQUEST
                     (JDict [("error", JStr ("Failed to process ML payload: "
                                             +:+ exn_message x))])))
  | inl errors => ret (mkResponse HTTP_400_BAD_REQUEST (errors_json errors))
  end.

Section Backend.

(** [DetectionService().analyze_document]: the detection engine, a
    collaborator of which only the shape of the result is known.  It reads
    the store and the document key. *)
Variable analyze_document : Store → Z → ServiceResults.

(** [SensitiveInformation.get_type_display]: the label the model's choices
    give to a stored type.  The choices are declared with the model, outside
    the code at hand, so the labelling is taken as given. *)
Variable get_type_display : string → string.

Definition item_json (si : SensitiveInformation) : json :=
  JDict [
    ("type", JStr (si_type si));
    ("type_display", JStr (get_type_display (si_type si)));
    ("confidence", JFloat (si_confidence si));
    ("location", option_json (si_location si));
    ("count", JInt (si_count si));
    ("redacted", JBool (si_redacted si))
  ].

Definition _handle_backend_analysis (data : RequestData) : M Response :=
  let* valid := AnalyzeDocumentSerializer.run_validation data in
  match valid with
  | inr document_id =>
      let* st := get_db in
      match analyze_document st document_id with
      | ResultsError msg =>
          ret (mkResponse HTTP_400_BAD_REQUEST (JDict [("error", JStr msg)]))
      | Results results =>
          match DetectionResultSerializer.run_validation results with
          | inr validated_data =>
              let* scan := DetectionResultSerializer.create validated_data in
              let* sensitive_count := scan_sensitive_information_count scan in
              (if bool_decide (sensitive_count > 0)
               then save_F_expression sensitive_items_detected sensitive_count
               else save_F_expression non_detected_items 1) ;;;
              let* rows := scan_sensitive_information scan in
              let response_data := JDict [
                ("scan_id", JInt (scan_id scan));
                ("document_id", JInt (scan_document scan));
                ("risk_level", JStr (scan_risk_level scan));
                ("processing_time", JFloat (scan_processing_time scan));
                ("scan_date", JInt (scan_date scan));
                ("sensitive_items_count", JInt sensitive_count);
                ("sensitive_items", JList (item_json <$> rows))
              ] in
              ret (mkResponse HTTP_201_CREATED response_data)
          | inl errors =>
              ret (mkResponse HTTP_400_BAD_REQUEST (errors_json errors))
          end
      end
  | inl errors => ret (mkResponse HTTP_400_BAD_REQUEST (errors_json errors))
  end.

(** [POST /analyze]. *)
Definition create (data : RequestData) : M Response :=
  match source data with
  | Given s =>
      if bool_decide (s = "ml_model") then _handle_ml_payload data
      else _handle_backend_analysis data
  | _ => _handle_backend_analysis data
  end.

End Backend.

End AnalysisViewSet.

(** ** documents/views.py *)

(** Modelled from the spec: documents/serializers.py is not part of the
    sources.  An update carries the fields the client sent; [save] sets
    them on the instance and writes the instance back. *)
Record DocumentUpdate := mkDocumentUpdate {
  upd_title : option string;
  upd_processed : option bool
}.

Record DocumentSerializer := mkDocumentSerializer {
  instance : Document;
  validated_data : DocumentUpdate
}.

Definition DocumentSerializer_save (s : DocumentSerializer) : M Document :=
  let d := instance s in
  let d' := mkDocument (doc_id d) (doc_user d)
              (default (doc_title d) (upd_title (validated_data s)))
              (default (doc_processed d) (upd_processed (validated_data s))) in
  Document_save d' ;;; ret d'.

Module DocumentViewSet.

(** [get_object()]: the document with key [pk] among the documents of the
    requesting user ([get_queryset]). *)
Definition get_object (pk : Z) : M Document :=
  let* st := get_db in
  let* user := get_user in
  match documents st !! pk with
  | Some d => if bool_decide (doc_user d = user_id user) then ret d
              else raise Http404
  | None => raise Http404
  end.

(** The two remaining branches of the source only print. *)
Definition perform_update (pk : Z) (serializer : DocumentSerializer) : M unit :=
  let* old := get_object pk in
  let old_processed := doc_processed old in
  let* document := DocumentSerializer_save serializer in
  if negb old_processed && doc_processed document
  then UserStatsService.increment_documents_processed
  else ret tt.

(** [perform_create]: [serializer.save(user=request.user)], then the
    counter.  Modelled from the spec: the serializer is not part of the
    sources; [new_document] is the row it builds from the request, under
    the key the store gives it, and [save] sets its owner. *)
Definition perform_create (new_document : Document) : M unit :=
  let* user := get_user in
  Document_save (mkDocument (doc_id new_document) (user_id user)
                   (doc_title new_document) (doc_processed new_document)) ;;;
  UserStatsService.increment_documents_saved.

(** [get_queryset]: the documents of the requesting user, or nothing
    for the schema generator and for a request that is not authenticated.
    The two flags are attributes of the view and of [request.user]. *)
Definition get_queryset (swagger_fake_view is_authenticated : bool)
    : M (list Document) :=
  if swagger_fake_view then ret []
  else if is_authenticated then
    let* st := get_db in
    let* user := get_user in
    ret (filter (λ d, doc_user d = user_id user)
                (map_to_list (documents st)).*2)
  else ret [].

(** The [scans] action: [document.scans.all()] for the object of the
    request; the rows are handed to a serializer that is not modelled. *)
Definition scans (pk : Z) : M (list DocumentScan) :=
  let* document := get_object pk in
  let* st := get_db in
  ret (filter (λ s, scan_document s = doc_id document) (scans st)).

End DocumentViewSet.

Module DocumentScanViewSet.

(** [DocumentScan.objects.filter(document__user=request.user)]: the scans
    whose document is there and belongs to the requesting user. *)
Definition of_user (st : Store) (uid : Z) (s : DocumentScan) : bool :=
  match documents st !! scan_document s with
  | Some d => bool_decide (doc_user d = uid)
  | None => false
  end.

Definition get_queryset (swagger_fake_view is_authenticated : bool)
    : M (list DocumentScan) :=
  if swagger_fake_view then ret []
  else if is_authenticated then
    let* st := get_db in
    let* user := get_user in
    ret (filter (λ s, of_user st (user_id user) s = true) (scans st))
  else ret [].

End DocumentScanViewSet.

(** ** Several requests against one store *)

(** Requests of one user, numbered.  Each request owns the user object
    the authentication layer loaded for it ([Load]) and later runs one
    counter operation with it ([Run]).  Every event is one statement of
    the store, so a schedule is an interleaving of the requests. *)
Module Concurrent.

Inductive event : Type :=
  | Load (i : nat)
  | Run (i : nat).

Record World := mkWorld { store : Store; objects : gmap nat User }.

Definition step (uid : Z) (op : M unit) (w : World) (ev : event) : World :=
  match ev with
  | Load i =>
      match users (store w) !! uid with
      | Some row => mkWorld (store w) (<[i := row]> (objects w))
      | None => w
      end
  | Run i =>
      match objects w !! i with
      | Some u =>
          let r := op (mkEnv u (store w)) in
          mkWorld (db r.1) (<[i := request_user r.1]> (objects w))
      | None => w
      end
  end.

Definition run (uid : Z) (op : M unit) (schedule : list event) (w : World) : World :=
  foldl (step uid op) w schedule.

(** The operations of a schedule that do run: those of a request that
    has loaded its user. *)
Fixpoint executed (loaded : gset nat) (schedule : list event) : nat :=
  match schedule with
  | [] => 0
  | Load i :: rest => executed ({[i]} ∪ loaded) rest
  | Run i :: rest =>
      ((if bool_decide (i ∈ loaded) then 1 else 0) + executed loaded rest)%nat
  end.

Definition counter_of (c : Counter) (uid : Z) (w : World) : option Z :=
  counter_get c <$> users (store w) !! uid.

End Concurrent.

(** ** Vocabulary of the statements *)

(** The scan a successful ingestion has just created, and the items the
    store holds for it. *)
Definition new_scan (st' : Store) : option DocumentScan := last (scans st').

Definition persisted_items (st' : Store) (scan : DocumentScan)
    : list SensitiveInformation :=
  filter (λ si, si_scan si = scan_id scan) (sensitive_information st').

Definition persisted_count (st' : Store) : Z :=
  match new_scan st' with
  | Some scan => Z.of_nat (length (persisted_items st' scan))
  | None => 0
  end.

(** The users table after adding [n] to counter [c] of user [uid]. *)
Definition incremented (c : Counter) (n : Z) (uid : Z) (row : User)
    (us : gmap Z User) : gmap Z User :=
  <[uid := counter_set c (counter_get c row + n) row]> us.

(** The store after an ingestion for document [d]: one scan and its item
    rows appended, the document marked, nothing else touched. *)
Definition ingested (st : Store) (d : Document) (scan : DocumentScan)
    (rows : list SensitiveInformation) : Store :=
  mkStore (users st)
          (<[doc_id d := set_processed true d]> (documents st))
          (scans st ++ [scan])
          (sensitive_information st ++ rows)
          (next_scan_id st + 1)
          (now st).

Definition field_default {A} (d : A) (f : field A) : A :=
  match f with Given a => a | _ => d end.

Definition field_option {A} (f : field A) : option A :=
  match f with Given a => Some a | _ => None end.

(** Whether a request is routed to the ML-payload handler. *)
Definition is_ml_payload (data : RequestData) : bool :=
  match source data with
  | Given s => bool_decide (s = "ml_model")
  | _ => false
  end.

(** The number that drives the counter update of an ingestion: the count
    field of an ML payload, the persisted items of a backend analysis. *)
Definition ingestion_count (data : RequestData) (st' : Store) : Z :=
  if is_ml_payload data
  then field_default 0 (sensitive_items_count data)
  else persisted_count st'.

(** Appending item rows and nothing else. *)
Definition with_items (st : Store) (rows : list SensitiveInformation) : Store :=
  mkStore (users st) (documents st) (scans st)
          (sensitive_information st ++ rows) (next_scan_id st) (now st).

(** The scan and the item rows [create_ml_analysis_result] makes for
    document [d]. *)
Definition ml_scan (st : Store) (d : Document)
    (vd : MLAnalysisPayloadSerializer.ValidatedData) : DocumentScan :=
  mkScan (next_scan_id st) (doc_id d)
         (MLAnalysisPayloadSerializer.risk_level_of
            (MLAnalysisPayloadSerializer.v_sensitive_items_count vd))
         (MLAnalysisPayloadSerializer.v_processing_time vd) (now st).

Definition ml_rows (st : Store) (d : Document)
    (vd : MLAnalysisPayloadSerializer.ValidatedData) : list SensitiveInformation :=
  MLAnalysisPayloadSerializer.ml_item (ml_scan st d vd)
    <$> default [] (MLAnalysisPayloadSerializer.v_sensitive_items vd).

(** The counter update of an ingestion that counted [n]. *)
Definition counted (n : Z) (uid : Z) (row : User) (us : gmap Z User)
    : gmap Z User :=
  if bool_decide (n > 0)
  then incremented sensitive_items_detected n uid row us
  else incremented non_detected_items 1 uid row us.

(** The keys of a response body, in order. *)
Definition body_keys (body : json) : list string :=
  match body with
  | JDict kv => kv.*1
  | _ => []
  end.


(** The status a handler answered with, if it answered at all. *)
Definition answered (r : exn + Response) : option Z :=
  match r with
  | inr resp => Some (status_code resp)
  | inl _ => None
  end.

(** The specification on counters read literally: whichever handler served the
    request, the users table differs from the one before by the update
    the persisted items of the new scan call for. *)
Definition counters_follow_persisted_items (e e' : Env) : Prop :=
  ∃ row, users (db e) !! user_id (request_user e) = Some row ∧
         users (db e')
         = counted (persisted_count (db e')) (user_id (request_user e)) row
                   (users (db e)).

(** The specification on response bodies read literally: the six keys that may
    not be omitted. *)
Definition has_required_keys (body : json) : bool :=
  forallb (λ k, has_key k body)
    ["document_id"; "scan_id"; "scan_date"; "processing_time";
     "sensitive_items_count"; "status"].

(** The body a handler answered with. *)
Definition response_body (r : exn + Response) : json :=
  match r with
  | inr resp => data resp
  | inl _ => JNull
  end.

(** The response inside an outcome, for outcomes that are responses. *)
Definition the_response (r : exn + Response) : Response :=
  match r with
  | inr resp => resp
  | inl _ => mkResponse 0 JNull
  end.

(** What the schedules keep true: the row of the user is there under its
    own key, and every loaded object is an object of that user. *)
Definition consistent (uid : Z) (w : Concurrent.World) : Prop :=
  (∃ row, users (Concurrent.store w) !! uid = Some row ∧ user_id row = uid) ∧
  (∀ i u, Concurrent.objects w !! i = Some u → user_id u = uid).

(** A supplied item and the row stored for it. *)
Definition row_of_item (scan : DocumentScan) (raw : RawItem)
    (row : SensitiveInformation) : Prop :=
  si_scan row = scan_id scan ∧
  raw_type raw = Given (si_type row) ∧
  raw_confidence raw = Given (si_confidence row) ∧
  si_location row = field_option (raw_location raw) ∧
  si_count row = field_default 1 (raw_count raw) ∧
  si_redacted row = false.

(** Keys and references of a store in order: every document sits under
    its own key, scan keys are distinct and below the next key to be given
    out, every scan has its document and every item its scan. *)
Record store_ok (st : Store) : Prop := mkStoreOk {
  documents_keyed : map_Forall (λ k d, doc_id d = k) (documents st);
  scans_distinct : NoDup (scan_id <$> scans st);
  scans_below : Forall (λ s, scan_id s < next_scan_id st) (scans st);
  scans_have_document :
    Forall (λ s, is_Some (documents st !! scan_document s)) (scans st);
  items_have_scan :
    Forall (λ si, Exists (λ s, scan_id s = si_scan si) (scans st))
           (sensitive_information st)
}.

(** What an ingestion may do to a store: append scans and items, mark
    documents processed, move counters; never remove or rewrite a scan or
    an item, never remove a document or a user, never unmark a document. *)
Record grows (st st' : Store) : Prop := mkGrows {
  scans_kept : scans st `prefix_of` scans st';
  items_kept : sensitive_information st `prefix_of` sensitive_information st';
  documents_kept :
    ∀ k d, documents st !! k = Some d →
      ∃ d', documents st' !! k = Some d' ∧
            doc_user d' = doc_user d ∧ doc_title d' = doc_title d ∧
            (doc_processed d = true → doc_processed d' = true);
  users_kept : ∀ uid, is_Some (users st !! uid) → is_Some (users st' !! uid)
}.

(** The environment after [user.c += n; user.save(update_fields=[c])]:
    the object has [n] more, and the row has the object's new value in
    column [c] and its own values in every other column. *)
Definition after_increment (c : Counter) (n : Z) (row : User) (e : Env) : Env :=
  let u := request_user e in
  mkEnv (counter_set c (counter_get c u + n) u)
        (set_users (<[user_id u := counter_set c (counter_get c u + n) row]>
                      (users (db e))) (db e)).

(** The user object and the row after [reset_user_stats]. *)
Definition zeroed (u : User) : User := mkUser (user_id u) 0 0 0 0 0.

(** One ingestion: [st'] is [st] with one scan, under the next key, of
    a document of [st], the rows of that scan, the processed mark on the
    document and at most one counter of user [uid] moved. *)
Definition one_ingestion (uid : Z) (st st' : Store) : Prop :=
  ∃ k d scan rows us',
    documents st !! k = Some d ∧
    scan_id scan = next_scan_id st ∧
    scan_document scan = doc_id d ∧
    Forall (λ si, si_scan si = scan_id scan) rows ∧
    (us' = users st ∨
     ∃ row c n, users st !! uid = Some row ∧
                us' = incremented c n uid row (users st)) ∧
    st' = set_users us' (ingested st d scan rows).

(** ** Concrete data used by the examples *)

Module Example.

Definition alice : User := mkUser 1 0 0 0 0 0.
Definition bob : User := mkUser 2 5 5 0 4 1.

Definition doc7 : Document := mkDocument 7 1 "report" false.
Definition doc8 : Document := mkDocument 8 2 "invoice" false.
Definition doc9 : Document := mkDocument 9 1 "memo" true.

Definition store0 : Store :=
  mkStore (<[1 := alice]> (<[2 := bob]> ∅))
          (<[7 := doc7]> (<[8 := doc8]> (<[9 := doc9]> ∅)))
          [] [] 1 1000.

(** Alice's request against [store0]. *)
Definition env0 : Env := mkEnv alice store0.

Definition email_item : RawItem :=
  mkRawItem (Given "email") (Given (9 # 10)%Q) Absent Absent
            [("redacted", JBool true)].

(** An ML payload for document [d] reporting [n] items and carrying the
    given item list. *)
Definition ml_request (d n : Z) (items : field (list RawItem)) : RequestData :=
  mkRequestData (Given d) (Given ["email"]) (Given n) (Given (1 # 2)%Q)
                (Given "ml_model") items.

(** A request for a backend analysis of document [d], with a [source]
    key as given. *)
Definition backend_request (d : Z) (src : field string) : RequestData :=
  mkRequestData (Given d) Absent Absent Absent src Absent.

(** A detection engine that finds one e-mail address in any document. *)
Definition one_email : Store → Z → ServiceResults :=
  λ _ d, Results (mkResultData (Given d) (Given "medium") (Given 1%Q)
                               (Given [email_item])).

(** A detection engine that finds nothing. *)
Definition nothing_found : Store → Z → ServiceResults :=
  λ _ d, Results (mkResultData (Given d) (Given "low") (Given 1%Q) (Given [])).

(** A labelling of the stored types. *)
Definition labels (t : string) : string :=
  if bool_decide (t = "email") then "Email Address" else t.

End Example.

(** * Properties *)

(** Unfolds the plumbing of a computation down to the environment. *)
Ltac run_m :=
  unfold bind, ret, raise, get_db, put_db, get_user, put_user, try_except;
  cbn [request_user db fst snd].

(** ** The stats service *)

Section StatsService.

Import UserStatsService.

Lemma env_eta (e : Env) : mkEnv (request_user e) (db e) = e.
Proof. by destruct e. Qed.

(** A guarded operation whose guard fires raises and leaves the
    environment as it found it. *)
Lemma atomic_guard_raises {A} (msg : string) (rest : M A) (e : Env) :
  atomic (logged ((raise (ValueError msg) : M unit) ;;; rest)) e
  = (e, inl (ValueError msg)).
Proof. unfold atomic, logged, try_except, bind, raise. simpl. by rewrite env_eta. Qed.

(** C7: each of the three operations that take a delta, called with a
    negative delta, raises the [ValueError] of the source and leaves the
    store and the user object exactly as they were; for the combined
    operation this holds whichever of its two deltas is negative. *)
Theorem negative_delta_rejected (e : Env) (count other : Z) :
  count < 0 →
  increment_sensitive_items_detected count e
    = (e, inl (ValueError "Count must be positive")) ∧
  increment_non_detected_items count e
    = (e, inl (ValueError "Count must be positive")) ∧
  update_stats_after_analysis count other e
    = (e, inl (ValueError "Counts must be non-negative")) ∧
  update_stats_after_analysis other count e
    = (e, inl (ValueError "Counts must be non-negative")).
Proof.
  intros Hneg.
  unfold increment_sensitive_items_detected, increment_non_detected_items,
    update_stats_after_analysis.
  rewrite (bool_decide_eq_true_2 (count < 0) Hneg), orb_true_r. simpl.
  repeat split; apply atomic_guard_raises.
Qed.

Lemma negative_delta_rejected_witness :
  -2 < 0 ∧
  increment_sensitive_items_detected (-2) Example.env0
    = (Example.env0, inl (ValueError "Count must be positive")) ∧
  increment_non_detected_items (-2) Example.env0
    = (Example.env0, inl (ValueError "Count must be positive")) ∧
  update_stats_after_analysis (-2) 3 Example.env0
    = (Example.env0, inl (ValueError "Counts must be non-negative")) ∧
  update_stats_after_analysis 3 (-2) Example.env0
    = (Example.env0, inl (ValueError "Counts must be non-negative")).
Proof.
  split; [lia | apply (negative_delta_rejected Example.env0 (-2) 3); lia].
Defined.

(** What [increment_documents_processed] does when the row exists: the
    object's counter goes up by one and that value is written to the row. *)
Lemma increment_documents_processed_effect (e : Env) (row : User) :
  users (db e) !! user_id (request_user e) = Some row →
  let u' := counter_set documents_processed
              (counter_get documents_processed (request_user e) + 1)
              (request_user e) in
  increment_documents_processed e
  = (mkEnv u' (set_users
                 (<[user_id (request_user e) :=
                      counter_set documents_processed
                        (counter_get documents_processed u') row]>
                    (users (db e))) (db e)),
     inr tt).
Proof.
  intros Hrow. destruct e as [u st]. simpl in *.
  unfold increment_documents_processed, atomic, logged, try_except, bind,
    add_attr, get_user, put_user, save_update_fields, bind. simpl.
  by rewrite Hrow.
Qed.

End StatsService.

(** ** The document endpoint *)

Section DocumentEndpoint.

Import DocumentViewSet.

(** C5: an update of a document the requesting user owns, made with the
    user object as authentication loaded it, returns normally; when the
    stored flag was false and the saved flag is true, the user's
    documents-processed counter is one higher and nothing else in the
    users table differs; on every other update, in particular from true
    to false, the users table is what it was. *)
Theorem perform_update_counts_transition
    (e : Env) (pk : Z) (serializer : DocumentSerializer) (d : Document) :
  users (db e) !! user_id (request_user e) = Some (request_user e) →
  documents (db e) !! pk = Some d →
  doc_user d = user_id (request_user e) →
  let saved_flag := default (doc_processed (instance serializer))
                      (upd_processed (validated_data serializer)) in
  ∃ e', perform_update pk serializer e = (e', inr tt) ∧
    (doc_processed d = false → saved_flag = true →
       users (db e') = incremented documents_processed 1
                         (user_id (request_user e)) (request_user e)
                         (users (db e))) ∧
    (¬ (doc_processed d = false ∧ saved_flag = true) →
       users (db e') = users (db e)).
Proof.
  intros Hrow Hdoc Hown saved_flag. destruct e as [u st]. simpl in *.
  unfold perform_update, get_object, DocumentSerializer_save, Document_save,
    bind, get_db, get_user, put_db, ret. simpl.
  rewrite Hdoc. simpl. rewrite (bool_decide_eq_true_2 _ Hown). simpl.
  fold saved_flag.
  destruct (doc_processed d) eqn:Hold, saved_flag eqn:Hnew; simpl.
  - eexists. split; [reflexivity|]. split; [done|]. done.
  - eexists. split; [reflexivity|]. split; [done|]. done.
  - rewrite (increment_documents_processed_effect _ u) by done. simpl.
    eexists. split; [reflexivity|]. split; [|intros []; done].
    intros _ _. unfold incremented. simpl. by destruct u.
  - eexists. split; [reflexivity|]. split; [done|]. done.
Qed.

Lemma perform_update_counts_transition_witness :
  users (db Example.env0) !! user_id (request_user Example.env0)
    = Some (request_user Example.env0) ∧
  documents (db Example.env0) !! 7 = Some Example.doc7 ∧
  doc_user Example.doc7 = user_id (request_user Example.env0) ∧
  ∃ e', perform_update 7
          (mkDocumentSerializer Example.doc7 (mkDocumentUpdate None (Some true)))
          Example.env0 = (e', inr tt) ∧
    (doc_processed Example.doc7 = false → true = true →
       users (db e') = incremented documents_processed 1 1 Example.alice
                         (users Example.store0)) ∧
    (¬ (doc_processed Example.doc7 = false ∧ true = true) →
       users (db e') = users Example.store0).
Proof.
  split; [reflexivity|]. split; [reflexivity|]. split; [reflexivity|].
  apply (perform_update_counts_transition Example.env0 7
           (mkDocumentSerializer Example.doc7 (mkDocumentUpdate None (Some true)))
           Example.doc7); reflexivity.
Defined.

End DocumentEndpoint.

(** ** Increments of several requests *)

Section LostUpdates.

Import Concurrent.

Lemma counter_set_user_id c v u : user_id (counter_set c v u) = user_id u.
Proof. by destruct c. Qed.

Lemma counter_get_set c v u : counter_get c (counter_set c v u) = v.
Proof. by destruct c. Qed.

Lemma counter_get_set_ne c c' v u :
  c ≠ c' → counter_get c' (counter_set c v u) = counter_get c' u.
Proof. by destruct c, c'. Qed.

Lemma step_F_load uid c d w i :
  consistent uid w →
  consistent uid (step uid (save_F_expression c d) w (Load i)) ∧
  counter_of c uid (step uid (save_F_expression c d) w (Load i))
    = counter_of c uid w ∧
  dom (objects (step uid (save_F_expression c d) w (Load i)))
    = {[i]} ∪ dom (objects w).
Proof.
  intros [(row & Hrow & Hid) Hobjs]. unfold step, consistent. rewrite Hrow.
  cbn [store objects].
  split; [|split; [done | by rewrite dom_insert_L]].
  split; [by exists row|].
  intros j u. destruct (decide (i = j)) as [->|Hne].
  - rewrite lookup_insert_eq. by intros [= <-].
  - rewrite lookup_insert_ne by done. apply Hobjs.
Qed.

Lemma step_F_run uid c d w i :
  consistent uid w →
  consistent uid (step uid (save_F_expression c d) w (Run i)) ∧
  counter_of c uid (step uid (save_F_expression c d) w (Run i))
    = (λ v, v + d * (if bool_decide (i ∈ dom (objects w)) then 1 else 0))
        <$> counter_of c uid w ∧
  dom (objects (step uid (save_F_expression c d) w (Run i)))
    = dom (objects w).
Proof.
  intros [(row & Hrow & Hid) Hobjs]. unfold step, consistent.
  destruct (objects w !! i) as [u|] eqn:Hu.
  - assert (Hin : i ∈ dom (objects w)) by (apply elem_of_dom; eauto).
    rewrite (bool_decide_eq_true_2 _ Hin).
    unfold save_F_expression. cbn [request_user db].
    rewrite (Hobjs i u Hu), Hrow.
    cbn [fst snd request_user db store objects].
    split; [|split].
    + split.
      * eexists. unfold set_users. cbn [users].
        rewrite lookup_insert_eq. split; [done|].
        by rewrite counter_set_user_id.
      * intros j u'. destruct (decide (i = j)) as [->|Hne].
        -- rewrite lookup_insert_eq. intros [= <-]. by apply (Hobjs j).
        -- rewrite lookup_insert_ne by done. apply Hobjs.
    + unfold counter_of, set_users. cbn [store users].
      rewrite lookup_insert_eq, Hrow. cbn [fmap option_fmap option_map].
      rewrite counter_get_set. f_equal. lia.
    + rewrite dom_insert_L. apply subseteq_union_1_L, singleton_subseteq_l, Hin.
  - assert (Hout : i ∉ dom (objects w)) by (by apply not_elem_of_dom).
    rewrite (bool_decide_eq_false_2 _ Hout).
    split; [by split; [exists row|] |]. split; [|done].
    unfold counter_of. destruct (users (store w) !! uid); simpl; [|done].
    f_equal. lia.
Qed.

(** X21: increments through an [F] expression add up under every schedule:
    the counter ends at its initial value plus the delta times the number
    of increments that ran, whatever the requests had loaded and whenever. *)
Lemma F_increments_add_up uid c d schedule w :
  consistent uid w →
  counter_of c uid (run uid (save_F_expression c d) schedule w)
  = (λ v, v + Z.of_nat (executed (dom (objects w)) schedule) * d)
      <$> counter_of c uid w.
Proof.
  revert w. induction schedule as [|ev rest IH]; intros w Hw.
  - simpl. destruct (counter_of c uid w); simpl; [f_equal; lia | done].
  - unfold run in *. cbn [foldl]. destruct ev as [i|i].
    + destruct (step_F_load uid c d w i Hw) as (Hw' & Hc & Hdom).
      rewrite IH by done. rewrite Hc, Hdom. done.
    + destruct (step_F_run uid c d w i Hw) as (Hw' & Hc & Hdom).
      rewrite IH by done. rewrite Hc, Hdom. cbn [executed].
      destruct (counter_of c uid w); simpl; [|done]. f_equal.
      case_bool_decide; lia.
Qed.

(** C8: two requests of the same user each load the user, then each runs
    one increment.  Both increments run; through the stats service the
    second overwrites the first, and the counter ends one delta above its
    initial value instead of two, while the same schedule through an [F]
    expression ends two deltas above. *)
Theorem service_increment_loses_update :
  let w0 := mkWorld Example.store0 ∅ in
  let schedule := [Load 0%nat; Load 1%nat; Run 0%nat; Run 1%nat] in
  executed ∅ schedule = 2%nat ∧
  counter_of documents_saved 1 w0 = Some 0 ∧
  counter_of documents_saved 1
    (run 1 UserStatsService.increment_documents_saved schedule w0) = Some 1 ∧
  counter_of sensitive_items_detected 1 w0 = Some 0 ∧
  counter_of sensitive_items_detected 1
    (run 1 (UserStatsService.increment_sensitive_items_detected 3) schedule w0)
    = Some 3 ∧
  counter_of sensitive_items_detected 1
    (run 1 (save_F_expression sensitive_items_detected 3) schedule w0)
    = Some 6.
Proof. vm_compute. repeat split; reflexivity. Qed.

End LostUpdates.

(** ** Ingestion: what the two serializers write *)

Section Persistence.

Lemma with_items_nil st : with_items st [] = st.
Proof. destruct st. unfold with_items. simpl. by rewrite app_nil_r. Qed.

Lemma with_items_app st rows rows' :
  with_items (with_items st rows) rows' = with_items st (rows ++ rows').
Proof. unfold with_items. simpl. by rewrite app_assoc. Qed.

Lemma for_each_insert {A} (f : A → SensitiveInformation) (xs : list A) u st :
  for_each xs (λ x, SensitiveInformation_insert (f x)) (mkEnv u st)
  = (mkEnv u (with_items st (f <$> xs)), inr tt).
Proof.
  revert st. induction xs as [|x xs IH]; intros st.
  - simpl. by rewrite with_items_nil.
  - cbn [for_each foldr]. fold (for_each xs (λ x, SensitiveInformation_insert (f x))).
    unfold SensitiveInformation_insert at 1. run_m.
    fold (with_items st [f x]). rewrite IH, with_items_app. done.
Qed.

Lemma for_each_create_from scan (xs : list ItemDict) u st :
  ∃ rows r,
    for_each xs (DetectionResultSerializer.SensitiveInformation_objects_create_from scan)
      (mkEnv u st)
    = (mkEnv u (with_items st rows), r).
Proof.
  revert st. induction xs as [|x xs IH]; intros st.
  - exists [], (inr tt). simpl. by rewrite with_items_nil.
  - cbn [for_each foldr].
    fold (for_each xs (DetectionResultSerializer.SensitiveInformation_objects_create_from scan)).
    unfold DetectionResultSerializer.SensitiveInformation_objects_create_from at 1.
    destruct (item_type x) as [t|], (item_confidence x) as [c|]; run_m;
      try (exists [], (inl DatabaseError); by rewrite with_items_nil).
    unfold SensitiveInformation_insert. run_m.
    match goal with
    | |- context [mkEnv u (mkStore _ _ _ (_ ++ [?row]) _ _)] =>
        fold (with_items st [row]);
        destruct (IH (with_items st [row])) as (rows & r & ->);
        exists (row :: rows), r
    end.
    by rewrite with_items_app.
Qed.

(** [create_ml_analysis_result] on an existing document. *)
Lemma create_ml_analysis_result_effect vd u st d :
  documents st !! MLAnalysisPayloadSerializer.v_document_id vd = Some d →
  MLAnalysisPayloadSerializer.create_ml_analysis_result vd (mkEnv u st)
  = (mkEnv u (ingested st d (ml_scan st d vd) (ml_rows st d vd)),
     inr (ml_scan st d vd)).
Proof.
  intros Hd. unfold MLAnalysisPayloadSerializer.create_ml_analysis_result,
    Document_objects_get, DocumentScan_objects_create, Document_save.
  run_m. rewrite Hd. run_m. rewrite for_each_insert. done.
Qed.

(** [create_ml_analysis_result] on a missing document: nothing written. *)
Lemma create_ml_analysis_result_missing vd u st :
  documents st !! MLAnalysisPayloadSerializer.v_document_id vd = None →
  MLAnalysisPayloadSerializer.create_ml_analysis_result vd (mkEnv u st)
  = (mkEnv u st, inl DoesNotExist).
Proof.
  intros Hd. unfold MLAnalysisPayloadSerializer.create_ml_analysis_result,
    Document_objects_get.
  run_m. by rewrite Hd.
Qed.

End Persistence.

(** ** Ingestion: the ML-payload handler *)

Section MLPayload.

Import MLAnalysisPayloadSerializer AnalysisViewSet.

Lemma required_field_nil {A} name (f : field A) :
  required_field name f = [] → ∃ a, f = Given a.
Proof. destruct f; [done | done | eauto]. Qed.

(** What an accepted payload looks like. *)
Lemma run_validation_accepts data vd :
  run_validation data = inr vd →
  document_id data = Given (v_document_id vd) ∧
  detection_types data = Given (v_detection_types vd) ∧
  sensitive_items_count data = Given (v_sensitive_items_count vd) ∧
  processing_time data = Given (v_processing_time vd) ∧
  (∃ s, source data = Given s ∧ strip s = "ml_model") ∧
  v_source vd = "ml_model" ∧
  items_errors (sensitive_items data) = [] ∧
  v_sensitive_items vd = validated_items (sensitive_items data).
Proof.
  unfold run_validation. destruct (errors data) eqn:Herr; [|done].
  unfold errors in Herr.
  repeat match type of Herr with
  | _ ++ _ = [] => apply app_eq_nil in Herr; destruct Herr as [? Herr]
  end.
  destruct (document_id data), (detection_types data),
    (sensitive_items_count data), (processing_time data),
    (source data) as [| |s]; try done.
  intros [= <-]. cbn.
  unfold source_errors, validate_source in *.
  case_bool_decide as Hblank; [done|].
  case_bool_decide as Hs; [done|].
  assert (strip s = "ml_model") as Heq
    by (by destruct (decide (strip s = "ml_model"))).
  rewrite Heq. eauto 10.
Qed.

(** Every payload with well-formed fields is accepted, whatever the
    integer it reports as its count. *)
Lemma run_validation_complete d ts n t items :
  items_errors items = [] →
  run_validation (mkRequestData (Given d) (Given ts) (Given n) (Given t)
                                (Given "ml_model") items)
  = inr (mkValidated d ts n t "ml_model" (validated_items items)).
Proof.
  intros Hitems. unfold run_validation, errors. cbn. by rewrite Hitems.
Qed.

(** A rejected payload is answered 400, and nothing is written. *)
Lemma handle_ml_payload_rejected data errs e :
  run_validation data = inl errs →
  _handle_ml_payload data e
  = (e, inr (mkResponse HTTP_400_BAD_REQUEST (errors_json errs))).
Proof. intros Hv. unfold _handle_ml_payload. by rewrite Hv. Qed.

(** An accepted payload naming a document that is not there is answered
    400, and nothing is written. *)
Lemma handle_ml_payload_missing_document data vd e :
  run_validation data = inr vd →
  documents (db e) !! v_document_id vd = None →
  ∃ body, _handle_ml_payload data e
          = (e, inr (mkResponse HTTP_400_BAD_REQUEST body)).
Proof.
  intros Hv Hd. unfold _handle_ml_payload. rewrite Hv. destruct e as [u st].
  unfold try_except, bind at 1.
  rewrite create_ml_analysis_result_missing by done. eexists. reflexivity.
Qed.

(** An accepted payload naming a document that is there: the scan and
    its items are written, the document is marked, one counter moves. *)
Lemma handle_ml_payload_effect data vd e d row :
  run_validation data = inr vd →
  documents (db e) !! v_document_id vd = Some d →
  users (db e) !! user_id (request_user e) = Some row →
  let scan := ml_scan (db e) d vd in
  let n := v_sensitive_items_count vd in
  _handle_ml_payload data e
  = (mkEnv (request_user e)
       (set_users (counted n (user_id (request_user e)) row (users (db e)))
          (ingested (db e) d scan (ml_rows (db e) d vd))),
     inr (mkResponse HTTP_201_CREATED (JDict [
            ("document_id", JInt (scan_document scan));
            ("scan_id", JInt (scan_id scan));
            ("scan_date", JInt (scan_date scan));
            ("sensitive_items_count", JInt n);
            ("source", JStr "ml_model");
            ("status", JStr "recorded")]))).
Proof.
  intros Hv Hd Hrow scan n. unfold _handle_ml_payload. rewrite Hv.
  destruct e as [u st]. cbn [request_user db] in *.
  unfold try_except, bind at 1.
  rewrite (create_ml_analysis_result_effect vd u st d) by done.
  unfold counted. fold n.
  destruct (bool_decide (n > 0)); unfold bind, save_F_expression, ret;
    cbn [request_user db ingested users]; rewrite Hrow; done.
Qed.

(** Conversely, a 201 answer of the handler comes from that case only. *)
Lemma handle_ml_payload_created data e e' resp :
  _handle_ml_payload data e = (e', inr resp) →
  status_code resp = HTTP_201_CREATED →
  ∃ vd d row,
    run_validation data = inr vd ∧
    documents (db e) !! v_document_id vd = Some d ∧
    users (db e) !! user_id (request_user e) = Some row.
Proof.
  intros Hrun Hcode.
  destruct (run_validation data) as [errs|vd] eqn:Hv.
  { rewrite (handle_ml_payload_rejected _ errs) in Hrun by done.
    injection Hrun as <- <-. done. }
  destruct (documents (db e) !! v_document_id vd) as [d|] eqn:Hd.
  2: { destruct (handle_ml_payload_missing_document data vd e Hv Hd) as [b Hb].
       rewrite Hb in Hrun. injection Hrun as <- <-. done. }
  destruct (users (db e) !! user_id (request_user e)) as [row|] eqn:Hrow.
  { by exists vd, d, row. }
  exfalso. revert Hrun. unfold _handle_ml_payload. rewrite Hv.
  destruct e as [u st]. cbn [request_user db] in *.
  unfold try_except, bind at 1.
  rewrite (create_ml_analysis_result_effect vd u st d) by done.
  destruct (bool_decide (v_sensitive_items_count vd > 0));
    unfold bind, save_F_expression, ret;
    cbn [request_user db ingested users]; rewrite Hrow;
    intros [= <- <-]; done.
Qed.

End MLPayload.

(** ** Ingestion of ML payloads: risk level, defaults, negative counts *)

Section MLPayloadProperties.

Import MLAnalysisPayloadSerializer AnalysisViewSet.

(** On the counts a detector can report, none or more, the risk level is
    the one the specification gives. *)
Lemma risk_level_of_nonnegative (n : Z) :
  0 ≤ n →
  (risk_level_of n = "low" ↔ n = 0) ∧
  (risk_level_of n = "medium" ↔ 1 ≤ n ≤ 2) ∧
  (risk_level_of n = "high" ↔ 3 ≤ n).
Proof.
  intros Hn. unfold risk_level_of.
  repeat case_bool_decide; repeat split; intros; try done; try lia.
Qed.

(** What the code does on every integer. *)
Lemma risk_level_of_cases (n : Z) :
  (risk_level_of n = "low" ↔ n = 0) ∧
  (risk_level_of n = "medium" ↔ n ≤ 2 ∧ n ≠ 0) ∧
  (risk_level_of n = "high" ↔ 3 ≤ n).
Proof.
  unfold risk_level_of.
  repeat case_bool_decide; repeat split; intros; try done; try lia.
Qed.

(** C3: the payload for Alice's document 7 that reports a count of -1 is
    accepted and answered 201, and the scan it creates has risk level
    medium although -1 is not between 1 and 2. *)
Theorem negative_count_scan_is_medium :
  let data := Example.ml_request 7 (-1) Absent in
  let r := create Example.one_email Example.labels data Example.env0 in
  answered r.2 = Some HTTP_201_CREATED ∧
  scan_risk_level <$> new_scan (db r.1) = Some "medium" ∧
  ¬ (1 ≤ -1 ≤ 2).
Proof. split; [reflexivity|]. split; [reflexivity|]. lia. Qed.

(** C2: Alice posts an ML payload for document 8, which is Bob's.  The
    answer is 201: a scan of Bob's document is stored, the document is
    marked processed and Alice's counter of detected items moves. *)
Theorem ml_payload_skips_ownership_check :
  let data := Example.ml_request 8 3 Absent in
  let r := create Example.one_email Example.labels data Example.env0 in
  documents Example.store0 !! 8 = Some Example.doc8 ∧
  doc_user Example.doc8 ≠ user_id (request_user Example.env0) ∧
  answered r.2 = Some HTTP_201_CREATED ∧
  scans Example.store0 = [] ∧
  scan_document <$> scans (db r.1) = [8] ∧
  doc_processed <$> documents (db r.1) !! 8 = Some true ∧
  total_sensitive_items_detected <$> users (db r.1) !! 1 = Some 3.
Proof. repeat split; try reflexivity. done. Qed.



(** Validation hands on only the four declared keys of an item, with
    [type] and [confidence] always present. *)
Lemma validated_item_has_type_and_confidence raw item :
  SensitiveItemSerializer.run_validation raw = Some item →
  raw_type raw = Given (default "other" (item_type item)) ∧
  is_Some (item_type item) ∧ is_Some (item_confidence item) ∧
  is_Some (item_count item).
Proof.
  unfold SensitiveItemSerializer.run_validation.
  destruct (raw_type raw), (raw_confidence raw), (raw_location raw),
    (raw_count raw); intros [= <-]; cbn; eauto.
Qed.




End MLPayloadProperties.

Section NegativeCount.

Import MLAnalysisPayloadSerializer AnalysisViewSet.

(** C10: an ML payload whose fields are all well formed and whose count
    is negative passes validation with that count; posted for an existing
    document by a user of the store it is answered 201, the scan it
    creates has risk level medium, and in the users table the only change
    is the requesting user's non-detected counter, one higher: the
    counter of detected items is what it was. *)
Theorem negative_count_accepted
    (svc : Store → Z → ServiceResults) (display : string → string)
    (d : Z) (ts : list string) (n : Z) (t : Q) (items : field (list RawItem))
    (e : Env) (doc : Document) (row : User) :
  n < 0 →
  items_errors items = [] →
  documents (db e) !! d = Some doc →
  users (db e) !! user_id (request_user e) = Some row →
  let data := mkRequestData (Given d) (Given ts) (Given n) (Given t)
                            (Given "ml_model") items in
  (∃ vd, run_validation data = inr vd ∧ v_sensitive_items_count vd = n) ∧
  ∃ e' resp scan,
    create svc display data e = (e', inr resp) ∧
    status_code resp = HTTP_201_CREATED ∧
    new_scan (db e') = Some scan ∧
    scan_risk_level scan = "medium" ∧
    users (db e') = incremented non_detected_items 1
                      (user_id (request_user e)) row (users (db e)) ∧
    counter_get sensitive_items_detected <$>
      users (db e') !! user_id (request_user e)
    = Some (counter_get sensitive_items_detected row).
Proof.
  intros Hn Hitems Hdoc Hrow data.
  pose proof (run_validation_complete d ts n t items Hitems) as Hv.
  fold data in Hv. split; [eauto|].
  change (create svc display data e) with (_handle_ml_payload data e).
  rewrite (handle_ml_payload_effect data _ e doc row Hv Hdoc Hrow).
  do 3 eexists. split; [reflexivity|]. split; [done|].
  split; [unfold new_scan; cbn; by rewrite last_snoc|].
  cbn [v_sensitive_items_count]. unfold counted, ml_scan.
  cbn [v_sensitive_items_count scan_risk_level].
  rewrite (bool_decide_eq_false_2 (n > 0)) by lia.
  split; [apply risk_level_of_cases; lia|]. split; [done|].
  unfold set_users, incremented. cbn [db users].
  rewrite lookup_insert_eq. done.
Qed.

Lemma negative_count_accepted_witness :
  -4 < 0 ∧
  items_errors (Given [Example.email_item]) = [] ∧
  documents (db Example.env0) !! 7 = Some Example.doc7 ∧
  users (db Example.env0) !! user_id (request_user Example.env0)
    = Some Example.alice ∧
  let data := mkRequestData (Given 7) (Given ["email"]) (Given (-4))
                (Given (1 # 2)%Q) (Given "ml_model")
                (Given [Example.email_item]) in
  (∃ vd, run_validation data = inr vd ∧ v_sensitive_items_count vd = -4) ∧
  ∃ e' resp scan,
    create Example.nothing_found Example.labels data Example.env0 = (e', inr resp) ∧
    status_code resp = HTTP_201_CREATED ∧
    new_scan (db e') = Some scan ∧
    scan_risk_level scan = "medium" ∧
    users (db e') = incremented non_detected_items 1
                      (user_id (request_user Example.env0)) Example.alice
                      (users (db Example.env0)) ∧
    counter_get sensitive_items_detected <$>
      users (db e') !! user_id (request_user Example.env0)
    = Some (counter_get sensitive_items_detected Example.alice).
Proof.
  split; [lia|]. split; [reflexivity|]. split; [reflexivity|].
  split; [reflexivity|].
  apply (negative_count_accepted Example.nothing_found Example.labels 7 ["email"] (-4)
           (1 # 2)%Q (Given [Example.email_item]) Example.env0
           Example.doc7 Example.alice); [lia | reflexivity..].
Defined.

End NegativeCount.

(** ** Ingestion: the backend-analysis handler *)

Section BackendAnalysis.

Import AnalysisViewSet.

Variable svc : Store → Z → ServiceResults.
Variable display : string → string.

(** Validation of the request reads the store and writes nothing; it
    accepts exactly the documents of the requesting user. *)
Lemma analyze_validation data e :
  ∃ r, AnalyzeDocumentSerializer.run_validation data e = (e, inr r) ∧
       ∀ id, r = inr id →
         document_id data = Given id ∧
         ∃ d, documents (db e) !! id = Some d ∧
              doc_user d = user_id (request_user e).
Proof.
  unfold AnalyzeDocumentSerializer.run_validation,
    AnalyzeDocumentSerializer.validate_document_id, Document_objects_get.
  destruct (document_id data) as [| |value]; run_m;
    try (eexists; split; [reflexivity | done]).
  destruct (documents (db e) !! value) as [d|] eqn:Hd; run_m;
    [|eexists; split; [reflexivity | done]].
  case_bool_decide as Hown; eexists; (split; [reflexivity|]); [done|].
  intros id [= <-]. split; [done|]. exists d. split; [done|].
  by destruct (decide (doc_user d = user_id (request_user e))).
Qed.

(** A request that fails validation is answered 400, nothing written. *)
Lemma handle_backend_rejected data e errs :
  AnalyzeDocumentSerializer.run_validation data e = (e, inr (inl errs)) →
  _handle_backend_analysis svc display data e
  = (e, inr (mkResponse HTTP_400_BAD_REQUEST (errors_json errs))).
Proof.
  intros Hv. unfold _handle_backend_analysis, bind at 1. by rewrite Hv.
Qed.

(** The scan [DetectionResultSerializer.create] makes. *)
Lemma create_effect (vd : DetectionResultSerializer.ValidatedData) u st d :
  documents st !! DetectionResultSerializer.v_document_id vd = Some d →
  let scan := mkScan (next_scan_id st) (doc_id d)
                (DetectionResultSerializer.v_risk_level vd)
                (DetectionResultSerializer.v_processing_time vd) (now st) in
  ∃ rows r,
    DetectionResultSerializer.create vd (mkEnv u st) = r ∧
    (∀ e' x, r = (e', inr x) →
       e' = mkEnv u (ingested st d scan rows) ∧ x = scan).
Proof.
  intros Hd scan. unfold DetectionResultSerializer.create,
    Document_objects_get, DocumentScan_objects_create, Document_save.
  run_m. rewrite Hd. run_m.
  match goal with
  | |- context [for_each ?xs ?body ?env] =>
      destruct (for_each_create_from scan xs u
                  (mkStore (users st) (documents st) (scans st ++ [scan])
                     (sensitive_information st) (next_scan_id st + 1) (now st)))
        as (rows & r & Hfor)
  end.
  fold scan. rewrite Hfor. exists rows. eexists. split; [reflexivity|].
  destruct r as [x|[]]; intros e' y; [done|].
  intros [= <- <-]. done.
Qed.

Lemma create_missing (vd : DetectionResultSerializer.ValidatedData) u st :
  documents st !! DetectionResultSerializer.v_document_id vd = None →
  DetectionResultSerializer.create vd (mkEnv u st) = (mkEnv u st, inl DoesNotExist).
Proof.
  intros Hd. unfold DetectionResultSerializer.create, Document_objects_get.
  run_m. by rewrite Hd.
Qed.

(** A 201 answer of the handler: what was written and what was sent. *)
Lemma handle_backend_created req e e' resp :
  _handle_backend_analysis svc display req e = (e', inr resp) →
  status_code resp = HTTP_201_CREATED →
  ∃ d scan rows row,
    users (db e) !! user_id (request_user e) = Some row ∧
    scan_document scan = doc_id d ∧
    let st1 := ingested (db e) d scan rows in
    let k := Z.of_nat (length (persisted_items st1 scan)) in
    e' = mkEnv (request_user e)
           (set_users (counted k (user_id (request_user e)) row (users (db e)))
                      st1) ∧
    body_keys (data resp)
      = ["scan_id"; "document_id"; "risk_level"; "processing_time";
         "scan_date"; "sensitive_items_count"; "sensitive_items"].
Proof.
  intros Hrun Hcode. revert Hrun.
  destruct (analyze_validation req e) as (r & Hv & _).
  unfold _handle_backend_analysis, bind at 1. rewrite Hv.
  destruct r as [errs|id]; [intros [= <- <-]; done|].
  unfold bind at 1, get_db.
  destruct (svc (db e) id) as [msg|results]; [intros [= <- <-]; done|].
  destruct (DetectionResultSerializer.run_validation results) as [errs|vd];
    [intros [= <- <-]; done|].
  destruct e as [u st]. cbn [db request_user].
  destruct (documents st !! DetectionResultSerializer.v_document_id vd)
    as [d|] eqn:Hd.
  2: { unfold bind at 1. by rewrite create_missing. }
  destruct (create_effect vd u st d Hd) as (rows & r & Hcreate & Hok).
  unfold bind at 1. rewrite Hcreate.
  destruct r as [e1 [x|scan]]; [done|].
  destruct (Hok e1 scan eq_refl) as [-> ->].
  set (scan := mkScan _ _ _ _ _) in *.
  unfold scan_sensitive_information_count, scan_sensitive_information.
  run_m.
  fold (persisted_items (ingested st d scan rows) scan).
  set (k := Z.of_nat (length (persisted_items (ingested st d scan rows) scan))).
  destruct (users st !! user_id u) as [row|] eqn:Hrow.
  2: { destruct (bool_decide (k > 0)); unfold save_F_expression;
       cbn [request_user db ingested users]; by rewrite Hrow. }
  intros Hrun. exists d, scan, rows, row. split; [done|]. split; [done|].
  cbn zeta. fold k. unfold counted.
  destruct (bool_decide (k > 0)); unfold save_F_expression in Hrun;
    cbn [request_user db ingested users] in Hrun; rewrite Hrow in Hrun;
    cbn [request_user db] in Hrun; injection Hrun as <- <-; done.
Qed.

End BackendAnalysis.

(** ** [POST /analyze]: counters, response body, processed flag *)

Section Analyze.

Import AnalysisViewSet.

Variable svc : Store → Z → ServiceResults.
Variable display : string → string.

Lemma create_routes req :
  create svc display req = if is_ml_payload req then _handle_ml_payload req
                   else _handle_backend_analysis svc display req.
Proof. unfold create, is_ml_payload. by destruct (source req). Qed.

Lemma new_scan_ingested us st d scan rows :
  new_scan (set_users us (ingested st d scan rows)) = Some scan.
Proof. unfold new_scan. cbn. by rewrite last_snoc. Qed.

Lemma persisted_count_ingested us st d scan rows :
  persisted_count (set_users us (ingested st d scan rows))
  = Z.of_nat (length (persisted_items (ingested st d scan rows) scan)).
Proof. unfold persisted_count. by rewrite new_scan_ingested. Qed.

Lemma counted_cases n uid row us :
  (n > 0 → counted n uid row us
           = incremented sensitive_items_detected n uid row us) ∧
  (n ≤ 0 → counted n uid row us
           = incremented non_detected_items 1 uid row us).
Proof. unfold counted. case_bool_decide; split; intros; done || lia. Qed.

(** The counter update touches the two detection counters only. *)
Lemma counted_frame n uid row us uid' c :
  us !! uid = Some row →
  c ≠ sensitive_items_detected → c ≠ non_detected_items →
  counter_get c <$> counted n uid row us !! uid' = counter_get c <$> us !! uid'.
Proof.
  intros Hrow Hs Hn. unfold counted, incremented.
  destruct (decide (uid = uid')) as [<-|Hne].
  - destruct (bool_decide (n > 0)); rewrite lookup_insert_eq, Hrow;
      cbn [fmap option_fmap option_map]; by rewrite counter_get_set_ne.
  - destruct (bool_decide (n > 0)); by rewrite lookup_insert_ne.
Qed.

(** What every 201 answer of the endpoint comes with. *)
Lemma create_created req e e' resp :
  create svc display req e = (e', inr resp) →
  status_code resp = HTTP_201_CREATED →
  ∃ d scan rows row,
    users (db e) !! user_id (request_user e) = Some row ∧
    scan_document scan = doc_id d ∧
    e' = mkEnv (request_user e)
           (set_users (counted (ingestion_count req (db e'))
                         (user_id (request_user e)) row (users (db e)))
                      (ingested (db e) d scan rows)) ∧
    body_keys (data resp)
    = if is_ml_payload req
      then ["document_id"; "scan_id"; "scan_date"; "sensitive_items_count";
            "source"; "status"]
      else ["scan_id"; "document_id"; "risk_level"; "processing_time";
            "scan_date"; "sensitive_items_count"; "sensitive_items"].
Proof.
  rewrite create_routes. unfold ingestion_count.
  destruct (is_ml_payload req) eqn:Hml; intros Hrun Hcode.
  - destruct (handle_ml_payload_created req e e' resp Hrun Hcode)
      as (vd & d & row & Hv & Hd & Hrow).
    rewrite (handle_ml_payload_effect req vd e d row Hv Hd Hrow) in Hrun.
    injection Hrun as <- <-.
    destruct (run_validation_accepts req vd Hv) as (_ & _ & -> & _).
    exists d, (ml_scan (db e) d vd), (ml_rows (db e) d vd), row.
    done.
  - destruct (handle_backend_created svc display req e e' resp Hrun Hcode)
      as (d & scan & rows & row & Hrow & Hdoc & -> & Hkeys).
    exists d, scan, rows, row. cbn [db].
    by rewrite persisted_count_ingested.
Qed.

(** C1, amended: a request answered 201 changes the users table by one
    counter of the requesting user, according to a count [k]: the items
    persisted for the new scan on a backend analysis, the count field of
    the payload on an ML payload.  With [k > 0] the counter of detected
    items is [k] higher, with [k = 0] the non-detected counter is one
    higher, and nothing else in the table differs. *)
Theorem ingestion_updates_counters (req : RequestData) (e e' : Env)
    (resp : Response) :
  create svc display req e = (e', inr resp) →
  status_code resp = HTTP_201_CREATED →
  let k := ingestion_count req (db e') in
  let uid := user_id (request_user e) in
  ∃ row, users (db e) !! uid = Some row ∧
    (k > 0 → users (db e')
             = incremented sensitive_items_detected k uid row (users (db e))) ∧
    (k = 0 → users (db e')
             = incremented non_detected_items 1 uid row (users (db e))).
Proof.
  intros Hrun Hcode k uid.
  destruct (create_created req e e' resp Hrun Hcode)
    as (d & scan & rows & row & Hrow & _ & He' & _).
  exists row. split; [done|].
  assert (users (db e') = counted k uid row (users (db e))) as ->
    by (rewrite He' at 1; done).
  destruct (counted_cases k uid row (users (db e))) as [Hpos Hzero].
  split; [done|]. intros ->. by apply Hzero.
Qed.

(** C9: a request answered 201 leaves the document of the new scan
    marked processed, and for every user every counter other than the
    two detection counters, documents-processed among them, is what it
    was. *)
Theorem ingestion_marks_document_only (req : RequestData) (e e' : Env)
    (resp : Response) :
  create svc display req e = (e', inr resp) →
  status_code resp = HTTP_201_CREATED →
  (∃ scan, new_scan (db e') = Some scan ∧
           doc_processed <$> documents (db e') !! scan_document scan
           = Some true) ∧
  (∀ uid, counter_get documents_processed <$> users (db e') !! uid
          = counter_get documents_processed <$> users (db e) !! uid) ∧
  (∀ uid c, c ≠ sensitive_items_detected → c ≠ non_detected_items →
            counter_get c <$> users (db e') !! uid
            = counter_get c <$> users (db e) !! uid).
Proof.
  intros Hrun Hcode.
  destruct (create_created req e e' resp Hrun Hcode)
    as (d & scan & rows & row & Hrow & Hdoc & He' & _).
  set (k := ingestion_count req (db e')) in *. clearbody k. subst e'.
  cbn [db]. split; [|split].
  - exists scan. rewrite new_scan_ingested. split; [done|].
    unfold set_users, ingested. cbn [documents]. rewrite Hdoc.
    by rewrite lookup_insert_eq.
  - intros uid. by apply counted_frame.
  - intros uid c Hs Hn. by apply counted_frame.
Qed.

(** C6, amended: a request answered 201 has a body with exactly the keys
    of its handler; [document_id], [scan_id], [scan_date] and
    [sensitive_items_count] are in both, [risk_level], [processing_time]
    and [sensitive_items] only in that of a backend analysis, [source]
    and [status] only in that of an ML payload. *)
Theorem created_response_keys (req : RequestData) (e e' : Env)
    (resp : Response) :
  create svc display req e = (e', inr resp) →
  status_code resp = HTTP_201_CREATED →
  body_keys (data resp)
  = (if is_ml_payload req
     then ["document_id"; "scan_id"; "scan_date"; "sensitive_items_count";
           "source"; "status"]
     else ["scan_id"; "document_id"; "risk_level"; "processing_time";
           "scan_date"; "sensitive_items_count"; "sensitive_items"]) ∧
  forallb (λ key, has_key key (data resp))
    ["document_id"; "scan_id"; "scan_date"; "sensitive_items_count"] = true ∧
  has_key "processing_time" (data resp) = negb (is_ml_payload req) ∧
  has_key "risk_level" (data resp) = negb (is_ml_payload req) ∧
  has_key "sensitive_items" (data resp) = negb (is_ml_payload req) ∧
  has_key "status" (data resp) = is_ml_payload req ∧
  has_key "source" (data resp) = is_ml_payload req.
Proof.
  intros Hrun Hcode.
  destruct (create_created req e e' resp Hrun Hcode)
    as (d & scan & rows & row & _ & _ & _ & Hkeys).
  split; [done|].
  destruct (data resp) as [| | | | | |kv];
    try (destruct (is_ml_payload req); discriminate).
  unfold has_key, forallb. cbn [body_keys] in Hkeys. rewrite Hkeys.
  by destruct (is_ml_payload req).
Qed.

(** X22: every refusal the handlers decide on before they write is
    answered 400 with the environment untouched: an ML payload that fails
    validation; an accepted ML payload naming a document that does not
    exist; a backend-analysis request that fails validation, its document
    missing or someone else's among the reasons; an engine that reports an
    error; an engine result that fails validation. *)
Theorem refusals_write_nothing (req : RequestData) (e : Env) :
  (∀ errs,
     is_ml_payload req = true →
     MLAnalysisPayloadSerializer.run_validation req = inl errs →
     create svc display req e
     = (e, inr (mkResponse HTTP_400_BAD_REQUEST (errors_json errs)))) ∧
  (∀ vd,
     is_ml_payload req = true →
     MLAnalysisPayloadSerializer.run_validation req = inr vd →
     documents (db e) !! MLAnalysisPayloadSerializer.v_document_id vd = None →
     ∃ body, create svc display req e
             = (e, inr (mkResponse HTTP_400_BAD_REQUEST body))) ∧
  (∀ errs,
     is_ml_payload req = false →
     AnalyzeDocumentSerializer.run_validation req e = (e, inr (inl errs)) →
     create svc display req e
     = (e, inr (mkResponse HTTP_400_BAD_REQUEST (errors_json errs)))) ∧
  (∀ id msg,
     is_ml_payload req = false →
     AnalyzeDocumentSerializer.run_validation req e = (e, inr (inr id)) →
     svc (db e) id = ResultsError msg →
     create svc display req e
     = (e, inr (mkResponse HTTP_400_BAD_REQUEST (JDict [("error", JStr msg)])))) ∧
  (∀ id results errs,
     is_ml_payload req = false →
     AnalyzeDocumentSerializer.run_validation req e = (e, inr (inr id)) →
     svc (db e) id = Results results →
     DetectionResultSerializer.run_validation results = inl errs →
     create svc display req e
     = (e, inr (mkResponse HTTP_400_BAD_REQUEST (errors_json errs)))).
Proof.
  rewrite create_routes. repeat split.
  - intros errs -> Hv. by apply handle_ml_payload_rejected.
  - intros vd -> Hv Hd. by apply (handle_ml_payload_missing_document req vd).
  - intros errs -> Hv. by apply handle_backend_rejected.
  - intros id msg -> Hv Hsvc.
    unfold _handle_backend_analysis, bind at 1. rewrite Hv.
    unfold bind at 1, get_db. by rewrite Hsvc.
  - intros id results errs -> Hv Hsvc Hres.
    unfold _handle_backend_analysis, bind at 1. rewrite Hv.
    unfold bind at 1, get_db. by rewrite Hsvc, Hres.
Qed.

End Analyze.

(** ** Where the specification and the handlers part *)

Section Divergences.

Import AnalysisViewSet.

(** C1 as stated fails on an ML payload that reports three items and
    supplies none: no item is persisted for the new scan, yet the counter
    of detected items goes up by three and the non-detected counter does
    not move. *)
Lemma ml_counters_ignore_persisted_items :
  let r := create Example.one_email Example.labels (Example.ml_request 7 3 Absent)
             Example.env0 in
  answered r.2 = Some HTTP_201_CREATED ∧
  persisted_count (db r.1) = 0 ∧
  total_sensitive_items_detected <$> users (db Example.env0) !! 1 = Some 0 ∧
  total_sensitive_items_detected <$> users (db r.1) !! 1 = Some 3 ∧
  total_non_detected_items <$> users (db Example.env0) !! 1 = Some 0 ∧
  total_non_detected_items <$> users (db r.1) !! 1 = Some 0 ∧
  ¬ counters_follow_persisted_items Example.env0 r.1.
Proof.
  repeat (split; [reflexivity|]).
  intros (row & Hrow & Husers).
  vm_compute in Hrow. injection Hrow as <-.
  apply (f_equal (λ us, total_non_detected_items <$> us !! 1)) in Husers.
  vm_compute in Husers. discriminate.
Qed.

(** C6 as stated fails under both protocols: the body of a 201 answer to
    an ML payload has no [processing_time], that of a 201 answer to a
    backend analysis has no [status]. *)
Lemma created_bodies_lack_required_keys :
  let ml := create Example.one_email Example.labels (Example.ml_request 7 3 Absent)
              Example.env0 in
  let backend := create Example.one_email Example.labels (Example.backend_request 7 Absent)
                   Example.env0 in
  answered ml.2 = Some HTTP_201_CREATED ∧
  has_key "processing_time" (response_body ml.2) = false ∧
  has_required_keys (response_body ml.2) = false ∧
  answered backend.2 = Some HTTP_201_CREATED ∧
  has_key "status" (response_body backend.2) = false ∧
  has_required_keys (response_body backend.2) = false.
Proof. repeat split; reflexivity. Qed.

(** A request whose [source] is not the marker of ML payloads is not
    refused for it: it is served as a backend analysis of its document. *)
Lemma other_source_is_backend_analysis :
  let r := create Example.one_email Example.labels
             (Example.backend_request 7 (Given "scanner")) Example.env0 in
  answered r.2 = Some HTTP_201_CREATED ∧
  scan_document <$> scans (db r.1) = [7] ∧
  body_keys (response_body r.2)
  = ["scan_id"; "document_id"; "risk_level"; "processing_time";
     "scan_date"; "sensitive_items_count"; "sensitive_items"].
Proof. repeat split; reflexivity. Qed.

(** Witnesses of the statements on [POST /analyze]. *)

Lemma ingestion_updates_counters_witness :
  ∃ e' resp,
    create Example.one_email Example.labels (Example.backend_request 7 Absent) Example.env0
      = (e', inr resp) ∧
    status_code resp = HTTP_201_CREATED ∧
    let k := ingestion_count (Example.backend_request 7 Absent) (db e') in
    let uid := user_id (request_user Example.env0) in
    ∃ row, users (db Example.env0) !! uid = Some row ∧
      (k > 0 → users (db e')
               = incremented sensitive_items_detected k uid row
                   (users (db Example.env0))) ∧
      (k = 0 → users (db e')
               = incremented non_detected_items 1 uid row
                   (users (db Example.env0))).
Proof.
  pose (r := create Example.one_email Example.labels (Example.backend_request 7 Absent) Example.env0).
  exists r.1, (the_response r.2).
  split; [reflexivity|]. split; [reflexivity|].
  apply (ingestion_updates_counters Example.one_email Example.labels (Example.backend_request 7 Absent) Example.env0 r.1 (the_response r.2));
    reflexivity.
Defined.

Lemma ingestion_marks_document_only_witness :
  ∃ e' resp,
    create Example.nothing_found Example.labels (Example.ml_request 7 2 Absent) Example.env0
      = (e', inr resp) ∧
    status_code resp = HTTP_201_CREATED ∧
    (∃ scan, new_scan (db e') = Some scan ∧
             doc_processed <$> documents (db e') !! scan_document scan
             = Some true) ∧
    (∀ uid, counter_get documents_processed <$> users (db e') !! uid
            = counter_get documents_processed
                <$> users (db Example.env0) !! uid) ∧
    (∀ uid c, c ≠ sensitive_items_detected → c ≠ non_detected_items →
              counter_get c <$> users (db e') !! uid
              = counter_get c <$> users (db Example.env0) !! uid).
Proof.
  pose (r := create Example.nothing_found Example.labels (Example.ml_request 7 2 Absent) Example.env0).
  exists r.1, (the_response r.2).
  split; [reflexivity|]. split; [reflexivity|].
  apply (ingestion_marks_document_only Example.nothing_found Example.labels (Example.ml_request 7 2 Absent) Example.env0 r.1 (the_response r.2));
    reflexivity.
Defined.

Lemma created_response_keys_witness :
  ∃ e' resp,
    create Example.nothing_found Example.labels (Example.backend_request 9 Absent)
      Example.env0 = (e', inr resp) ∧
    status_code resp = HTTP_201_CREATED ∧
    body_keys (data resp)
    = ["scan_id"; "document_id"; "risk_level"; "processing_time";
       "scan_date"; "sensitive_items_count"; "sensitive_items"] ∧
    forallb (λ key, has_key key (data resp))
      ["document_id"; "scan_id"; "scan_date"; "sensitive_items_count"]
    = true ∧
    has_key "processing_time" (data resp) = true ∧
    has_key "risk_level" (data resp) = true ∧
    has_key "sensitive_items" (data resp) = true ∧
    has_key "status" (data resp) = false ∧
    has_key "source" (data resp) = false.
Proof.
  pose (r := create Example.nothing_found Example.labels (Example.backend_request 9 Absent) Example.env0).
  exists r.1, (the_response r.2).
  split; [reflexivity|]. split; [reflexivity|].
  apply (created_response_keys Example.nothing_found Example.labels (Example.backend_request 9 Absent) Example.env0 r.1 (the_response r.2));
    reflexivity.
Defined.

End Divergences.

(** * Further properties of the code *)

(** ** The stats service on one request *)

Section StatsServiceEffects.

Import UserStatsService.

Lemma increment_body_effect c n e row :
  users (db e) !! user_id (request_user e) = Some row →
  atomic (logged (add_attr c n ;;; save_update_fields [c])) e
  = (after_increment c n row e, inr tt).
Proof.
  intros Hrow. destruct e as [u st]. cbn [request_user db] in *.
  unfold atomic, logged, add_attr, save_update_fields, after_increment.
  run_m. rewrite counter_set_user_id, Hrow. cbn [write_columns foldr].
  by rewrite counter_get_set.
Qed.

Lemma guard_passes {A} (count : Z) (msg : string) (rest : M A) :
  0 ≤ count →
  ((if bool_decide (count < 0) then raise (ValueError msg) else ret tt) ;;; rest)
  = (ret tt ;;; rest).
Proof. intros Hc. by rewrite bool_decide_eq_false_2 by lia. Qed.

Lemma ret_bind {A} (rest : M A) (e : Env) : (ret tt ;;; rest) e = rest e.
Proof. done. Qed.

Lemma atomic_logged_ext {A} (m m' : M A) e :
  (∀ e0, m e0 = m' e0) → atomic (logged m) e = atomic (logged m') e.
Proof. intros H. unfold atomic, logged, try_except. by rewrite H. Qed.

Lemma guarded_increment_effect c count msg e row :
  0 ≤ count →
  users (db e) !! user_id (request_user e) = Some row →
  atomic (logged (
    (if bool_decide (count < 0) then raise (ValueError msg) else ret tt) ;;;
    add_attr c count ;;; save_update_fields [c])) e
  = (after_increment c count row e, inr tt).
Proof.
  intros Hc Hrow. rewrite guard_passes by done.
  rewrite (atomic_logged_ext _ (add_attr c count ;;; save_update_fields [c]))
    by done.
  by apply increment_body_effect.
Qed.

Lemma service_increment_effect_parts (e : Env) (row : User) (count : Z) :
  users (db e) !! user_id (request_user e) = Some row →
  0 ≤ count →
  increment_sensitive_items_detected count e
    = (after_increment sensitive_items_detected count row e, inr tt) ∧
  increment_non_detected_items count e
    = (after_increment non_detected_items count row e, inr tt).
Proof.
  intros Hrow Hc.
  unfold increment_sensitive_items_detected, increment_non_detected_items.
  split; by apply guarded_increment_effect.
Qed.

(** X1: every increment of the stats service, called for a user whose
    row is in the store (with a delta that is not negative, where it
    takes one), returns normally; it adds the delta to the counter of the
    user object, writes that one value to the column of the row and
    leaves every other column of the row, and every other row, as the
    store had them. *)
Theorem service_increment_effect (e : Env) (row : User) (count : Z) :
  users (db e) !! user_id (request_user e) = Some row →
  0 ≤ count →
  increment_documents_saved e
    = (after_increment documents_saved 1 row e, inr tt) ∧
  increment_documents_processed e
    = (after_increment documents_processed 1 row e, inr tt) ∧
  increment_documents_shared e
    = (after_increment documents_shared 1 row e, inr tt) ∧
  increment_sensitive_items_detected count e
    = (after_increment sensitive_items_detected count row e, inr tt) ∧
  increment_non_detected_items count e
    = (after_increment non_detected_items count row e, inr tt).
Proof.
  intros Hrow Hc.
  unfold increment_documents_saved, increment_documents_processed,
    increment_documents_shared, increment_sensitive_items_detected,
    increment_non_detected_items.
  repeat split;
    (by apply increment_body_effect) || (by apply guarded_increment_effect).
Qed.

Lemma service_increment_effect_witness :
  users (db Example.env0) !! user_id (request_user Example.env0)
    = Some Example.alice ∧
  0 ≤ 4 ∧
  increment_documents_saved Example.env0
    = (after_increment documents_saved 1 Example.alice Example.env0, inr tt) ∧
  increment_documents_processed Example.env0
    = (after_increment documents_processed 1 Example.alice Example.env0,
       inr tt) ∧
  increment_documents_shared Example.env0
    = (after_increment documents_shared 1 Example.alice Example.env0, inr tt) ∧
  increment_sensitive_items_detected 4 Example.env0
    = (after_increment sensitive_items_detected 4 Example.alice Example.env0,
       inr tt) ∧
  increment_non_detected_items 4 Example.env0
    = (after_increment non_detected_items 4 Example.alice Example.env0,
       inr tt).
Proof.
  split; [reflexivity|]. split; [lia|].
  apply (service_increment_effect Example.env0 Example.alice 4);
    [reflexivity | lia].
Defined.

End StatsServiceEffects.

Section StatsServiceComposition.

Import UserStatsService.

Lemma after_increment_row c n row e :
  users (db (after_increment c n row e)) !! user_id (request_user e)
  = Some (counter_set c (counter_get c (request_user e) + n) row).
Proof. unfold after_increment, set_users. cbn. by rewrite lookup_insert_eq. Qed.

Lemma after_increment_user_id c n row e :
  user_id (request_user (after_increment c n row e)) = user_id (request_user e).
Proof. unfold after_increment. cbn. by rewrite counter_set_user_id. Qed.

Lemma bind_result {A B} (m : M A) (k : A → M B) e e1 a :
  m e = (e1, inr a) → bind m k e = k a e1.
Proof. intros H. unfold bind. by rewrite H. Qed.

Lemma counter_set_set c v w u :
  counter_set c v (counter_set c w u) = counter_set c v u.
Proof. by destruct c. Qed.

Lemma counter_set_comm c c' v w u :
  c ≠ c' →
  counter_set c v (counter_set c' w u) = counter_set c' w (counter_set c v u).
Proof. by destruct c, c'. Qed.

Ltac project :=
  cbn [request_user db users documents scans sensitive_information
       next_scan_id now].

(** Two increments of one counter, one after the other. *)
Lemma after_increment_twice c a b row e :
  after_increment c b
    (counter_set c (counter_get c (request_user e) + a) row)
    (after_increment c a row e)
  = after_increment c (a + b) row e.
Proof.
  destruct e as [u st]. unfold after_increment, set_users. project.
  rewrite counter_set_user_id, insert_insert_eq, counter_get_set,
    !counter_set_set.
  by rewrite Z.add_assoc.
Qed.

(** X2: within one request, for a user whose row is in the store and
    deltas that are not negative, two increments of the detected-items
    counter one after the other are one increment by the sum, and the
    combined update after an analysis is the increment of the
    detected-items counter followed by that of the non-detected counter:
    same store, same user object, same outcome. *)
Theorem service_increments_compose (e : Env) (row : User) (a b : Z) :
  users (db e) !! user_id (request_user e) = Some row →
  0 ≤ a → 0 ≤ b →
  (increment_sensitive_items_detected a ;;;
   increment_sensitive_items_detected b) e
    = increment_sensitive_items_detected (a + b) e ∧
  update_stats_after_analysis a b e
    = (increment_sensitive_items_detected a ;;;
       increment_non_detected_items b) e.
Proof.
  intros Hrow Ha Hb.
  destruct (service_increment_effect_parts e row a Hrow Ha) as [Hs _].
  pose proof (service_increment_effect_parts
                (after_increment sensitive_items_detected a row e)
                (counter_set sensitive_items_detected
                   (counter_get sensitive_items_detected (request_user e) + a)
                   row) b) as Hnext.
  rewrite after_increment_user_id, after_increment_row in Hnext.
  destruct (Hnext eq_refl Hb) as [Hs2 Hn2].
  split.
  - rewrite (bind_result _ _ _ _ _ Hs), Hs2, after_increment_twice.
    destruct (service_increment_effect_parts e row (a + b) Hrow) as [-> _];
      [lia | done].
  - rewrite (bind_result _ _ _ _ _ Hs), Hn2.
    unfold update_stats_after_analysis.
    rewrite !bool_decide_eq_false_2 by lia. cbn [orb].
    destruct e as [u st]. cbn [request_user db] in *.
    unfold atomic, logged, add_attr, save_update_fields, after_increment,
      set_users.
    run_m. project.
    rewrite !counter_set_user_id, Hrow, insert_insert_eq.
    cbn [write_columns foldr]. by destruct u, row.
Qed.

Lemma service_increments_compose_witness :
  users (db Example.env0) !! user_id (request_user Example.env0)
    = Some Example.alice ∧
  0 ≤ 2 ∧ 0 ≤ 3 ∧
  (increment_sensitive_items_detected 2 ;;;
   increment_sensitive_items_detected 3) Example.env0
    = increment_sensitive_items_detected (2 + 3) Example.env0 ∧
  update_stats_after_analysis 2 3 Example.env0
    = (increment_sensitive_items_detected 2 ;;;
       increment_non_detected_items 3) Example.env0.
Proof.
  split; [reflexivity|]. split; [lia|]. split; [lia|].
  apply (service_increments_compose Example.env0 Example.alice 2 3);
    [reflexivity | lia | lia].
Defined.

End StatsServiceComposition.

Section StatsServiceEdges.

Import UserStatsService.

(** X3: [reset_user_stats], for a user whose row is in the store, sets
    the five counters of the user object and of the row to zero whatever
    they were, keeps the key of the row, touches no other row and nothing
    else in the store, and run again changes nothing more. *)
Theorem reset_user_stats_zeroes (e : Env) (row : User) :
  users (db e) !! user_id (request_user e) = Some row →
  let e' := mkEnv (zeroed (request_user e))
              (set_users (<[user_id (request_user e) := zeroed row]>
                            (users (db e))) (db e)) in
  reset_user_stats e = (e', inr tt) ∧
  (∀ c, counter_get c (zeroed row) = 0) ∧
  user_id (zeroed row) = user_id row ∧
  reset_user_stats e' = (e', inr tt).
Proof.
  intros Hrow e'.
  assert (Hreset : ∀ e0 row0,
    users (db e0) !! user_id (request_user e0) = Some row0 →
    reset_user_stats e0
    = (mkEnv (zeroed (request_user e0))
         (set_users (<[user_id (request_user e0) := zeroed row0]>
                       (users (db e0))) (db e0)), inr tt)).
  { intros [u st] row0 H0. cbn [request_user db] in *.
    unfold reset_user_stats, logged, save_update_fields. run_m.
    cbn [user_id]. rewrite H0. by destruct row0. }
  split; [by apply Hreset|]. split; [by intros []|]. split; [done|].
  rewrite (Hreset e' (zeroed row)).
  - subst e'. unfold set_users, zeroed. cbn. by rewrite insert_insert_eq.
  - subst e'. unfold set_users. cbn. by rewrite lookup_insert_eq.
Qed.

Lemma reset_user_stats_zeroes_witness :
  let e := mkEnv Example.bob Example.store0 in
  users (db e) !! user_id (request_user e) = Some Example.bob ∧
  let e' := mkEnv (zeroed (request_user e))
              (set_users (<[user_id (request_user e) := zeroed Example.bob]>
                            (users (db e))) (db e)) in
  reset_user_stats e = (e', inr tt) ∧
  (∀ c, counter_get c (zeroed Example.bob) = 0) ∧
  user_id (zeroed Example.bob) = user_id Example.bob ∧
  reset_user_stats e' = (e', inr tt).
Proof.
  intros e. split; [reflexivity|].
  apply (reset_user_stats_zeroes e Example.bob). reflexivity.
Defined.

(** X4: when the row of the user is not in the store, the operations of
    the stats service raise the error of [save] and the store is what it
    was, but the user object keeps the change made to it before the
    write: the added delta, or the zeroes of a reset. *)
Theorem service_without_row (e : Env) (count : Z) :
  users (db e) !! user_id (request_user e) = None →
  0 ≤ count →
  let u := request_user e in
  increment_documents_saved e
    = (mkEnv (counter_set documents_saved
                (counter_get documents_saved u + 1) u) (db e),
       inl DatabaseError) ∧
  increment_sensitive_items_detected count e
    = (mkEnv (counter_set sensitive_items_detected
                (counter_get sensitive_items_detected u + count) u) (db e),
       inl DatabaseError) ∧
  reset_user_stats e = (mkEnv (zeroed u) (db e), inl DatabaseError).
Proof.
  intros Hrow Hc u. destruct e as [u0 st]. cbn [request_user db] in *.
  subst u.
  unfold increment_documents_saved, increment_sensitive_items_detected,
    reset_user_stats, atomic, logged, add_attr, save_update_fields.
  rewrite (bool_decide_eq_false_2 (count < 0)) by lia.
  run_m. cbn [user_id]. rewrite !counter_set_user_id, Hrow. done.
Qed.

Lemma service_without_row_witness :
  let e := mkEnv (mkUser 3 1 1 1 1 1) Example.store0 in
  users (db e) !! user_id (request_user e) = None ∧
  0 ≤ 2 ∧
  let u := request_user e in
  increment_documents_saved e
    = (mkEnv (counter_set documents_saved
                (counter_get documents_saved u + 1) u) (db e),
       inl DatabaseError) ∧
  increment_sensitive_items_detected 2 e
    = (mkEnv (counter_set sensitive_items_detected
                (counter_get sensitive_items_detected u + 2) u) (db e),
       inl DatabaseError) ∧
  reset_user_stats e = (mkEnv (zeroed u) (db e), inl DatabaseError).
Proof.
  intros e. split; [reflexivity|]. split; [lia|].
  apply (service_without_row e 2); [reflexivity | lia].
Defined.

End StatsServiceEdges.

(** ** Validation *)

Section Validation.

(** X5: validating a request for a backend analysis never raises and
    never writes.  It accepts a document key exactly when the key is
    given, a document is stored under it and that document belongs to the
    requesting user; a key with no document is refused as not found, a
    document of someone else as not permitted. *)
Theorem analyze_validation_accepts_own_documents (req : RequestData) (e : Env) :
  ∃ r, AnalyzeDocumentSerializer.run_validation req e = (e, inr r) ∧
    (∀ id, r = inr id ↔
       document_id req = Given id ∧
       ∃ d, documents (db e) !! id = Some d ∧
            doc_user d = user_id (request_user e)) ∧
    (∀ id, document_id req = Given id →
       documents (db e) !! id = None →
       r = inl [("document_id", "Document not found")]) ∧
    (∀ id d, document_id req = Given id →
       documents (db e) !! id = Some d →
       doc_user d ≠ user_id (request_user e) →
       r = inl [("document_id",
                 "You don't have permission to analyze this document")]).
Proof.
  unfold AnalyzeDocumentSerializer.run_validation,
    AnalyzeDocumentSerializer.validate_document_id, Document_objects_get.
  destruct (document_id req) as [| |value]; run_m.
  1, 2: eexists; split; [reflexivity|]; split; [|done];
        intros id; split; [done | by intros [? _]].
  destruct (documents (db e) !! value) as [d|] eqn:Hd; run_m.
  - case_bool_decide as Hown; eexists; (split; [reflexivity|]).
    + split; [|split].
      * intros id. split; [done|].
        intros [[= <-] (d' & Hd' & Hown')]. by simplify_eq.
      * intros id [= <-] Hnone. by simplify_eq.
      * by intros id d' [= <-] _ _.
    + assert (doc_user d = user_id (request_user e))
        by (by destruct (decide (doc_user d = user_id (request_user e)))).
      split; [|split].
      * intros id. split; [intros [= <-]; eauto|].
        by intros [[= <-] _].
      * intros id [= <-] Hnone. by simplify_eq.
      * intros id d' [= <-] Hd' Hne. by simplify_eq.
  - eexists. split; [reflexivity|]. split; [|split].
    + intros id. split; [done|].
      intros [[= <-] (d' & Hd' & _)]. by simplify_eq.
    + by intros id [= <-] _.
    + intros id d' [= <-] Hd'. by simplify_eq.
Qed.

Lemma item_validation_parts (raw : RawItem) (item : ItemDict) :
  SensitiveItemSerializer.run_validation raw = Some item →
  ∃ t c,
    raw_type raw = Given t ∧ raw_confidence raw = Given c ∧
    raw_location raw ≠ Invalid ∧ raw_count raw ≠ Invalid ∧
    item = mkItemDict (Some t) (Some c)
             (field_option (raw_location raw))
             (Some (field_default 1 (raw_count raw))).
Proof.
  unfold SensitiveItemSerializer.run_validation.
  destruct (raw_type raw) as [| |t], (raw_confidence raw) as [| |c],
    (raw_location raw), (raw_count raw);
    intros [= <-]; exists t, c; done.
Qed.

(** X6: an item of [sensitive_items] passes validation exactly when its
    type and confidence are well formed and neither its location nor its
    count is malformed; the validated item then has just the four
    declared keys, with the count 1 when none was sent and no location
    when none was sent.  Keys that are not declared, [redacted] among
    them, have no influence. *)
Theorem item_validation_characterised (raw : RawItem) (item : ItemDict) :
  SensitiveItemSerializer.run_validation raw = Some item ↔
  ∃ t c,
    raw_type raw = Given t ∧ raw_confidence raw = Given c ∧
    raw_location raw ≠ Invalid ∧ raw_count raw ≠ Invalid ∧
    item = mkItemDict (Some t) (Some c)
             (field_option (raw_location raw))
             (Some (field_default 1 (raw_count raw))).
Proof.
  split; [apply item_validation_parts|].
  unfold SensitiveItemSerializer.run_validation.
  intros (t & c & -> & -> & Hloc & Hcount & ->).
  destruct (raw_location raw), (raw_count raw); done.
Qed.

(** A list of items passes validation exactly when every item does, and
    then yields one validated item per supplied item, in order. *)
Lemma items_validation_all_or_nothing (raws : list RawItem) :
  (∀ items, SensitiveItemSerializer.run_validation_many raws = Some items ↔
            Forall2 (λ raw item,
                       SensitiveItemSerializer.run_validation raw = Some item)
                    raws items) ∧
  (∀ items, SensitiveItemSerializer.run_validation_many raws = Some items →
            length items = length raws) ∧
  (SensitiveItemSerializer.run_validation_many raws = None ↔
   ∃ raw, raw ∈ raws ∧ SensitiveItemSerializer.run_validation raw = None).
Proof.
  unfold SensitiveItemSerializer.run_validation_many.
  split; [|split].
  - intros items. apply mapM_Some.
  - intros items Hm. symmetry. by eapply length_mapM.
  - rewrite mapM_None, Exists_exists. done.
Qed.

(** X7: one malformed item is enough to refuse an ML payload, whatever
    its other fields and its other items: the answer is a 400 whose error
    map names [sensitive_items], and nothing is written, the well-formed
    items included. *)
Theorem ml_payload_with_malformed_item_refused (req : RequestData)
    (raws : list RawItem) (raw : RawItem) (e : Env) :
  sensitive_items req = Given raws →
  raw ∈ raws →
  SensitiveItemSerializer.run_validation raw = None →
  ∃ errs,
    AnalysisViewSet._handle_ml_payload req e
      = (e, inr (mkResponse HTTP_400_BAD_REQUEST (errors_json errs))) ∧
    "sensitive_items" ∈ errs.*1.
Proof.
  intros Hraws Hin Hbad.
  assert (Hmany : SensitiveItemSerializer.run_validation_many raws = None).
  { apply items_validation_all_or_nothing. eauto. }
  assert (Herr : MLAnalysisPayloadSerializer.items_errors (sensitive_items req)
                 = [("sensitive_items", "Not a valid value.")]).
  { rewrite Hraws. cbn. by rewrite Hmany. }
  assert (Hin' : "sensitive_items"
                 ∈ (MLAnalysisPayloadSerializer.errors req).*1).
  { unfold MLAnalysisPayloadSerializer.errors. rewrite Herr.
    rewrite !fmap_app, !elem_of_app. do 5 right. cbn. set_solver. }
  exists (MLAnalysisPayloadSerializer.errors req). split; [|done].
  apply handle_ml_payload_rejected.
  unfold MLAnalysisPayloadSerializer.run_validation.
  destruct (MLAnalysisPayloadSerializer.errors req) as [|err errs] eqn:Herrs;
    [|done].
  by apply elem_of_nil in Hin'.
Qed.

Lemma ml_payload_with_malformed_item_refused_witness :
  let broken := mkRawItem (Given "ssn") Absent Absent Absent [] in
  let raws := [Example.email_item; broken] in
  let req := Example.ml_request 7 2 (Given raws) in
  sensitive_items req = Given raws ∧
  broken ∈ raws ∧
  SensitiveItemSerializer.run_validation broken = None ∧
  ∃ errs,
    AnalysisViewSet._handle_ml_payload req Example.env0
      = (Example.env0,
         inr (mkResponse HTTP_400_BAD_REQUEST (errors_json errs))) ∧
    "sensitive_items" ∈ errs.*1.
Proof.
  intros broken raws req.
  assert (Hin : broken ∈ raws) by (apply list_elem_of_further, list_elem_of_here).
  split; [reflexivity|]. split; [exact Hin|]. split; [reflexivity|].
  exact (ml_payload_with_malformed_item_refused req raws broken Example.env0
           eq_refl Hin eq_refl).
Defined.

(** A payload with well-formed fields is accepted whenever its source,
    trimmed, is the marker. *)
Lemma run_validation_trims_source d ts n t s items :
  strip s = "ml_model" →
  MLAnalysisPayloadSerializer.items_errors items = [] →
  MLAnalysisPayloadSerializer.run_validation
    (mkRequestData (Given d) (Given ts) (Given n) (Given t) (Given s) items)
  = inr (MLAnalysisPayloadSerializer.mkValidated d ts n t "ml_model"
           (MLAnalysisPayloadSerializer.validated_items items)).
Proof.
  intros Hs Hitems.
  unfold MLAnalysisPayloadSerializer.run_validation,
    MLAnalysisPayloadSerializer.errors,
    MLAnalysisPayloadSerializer.source_errors.
  cbn [document_id detection_types sensitive_items_count processing_time
       source sensitive_items required_field app].
  rewrite Hs, Hitems. reflexivity.
Qed.

(** X8: an ML payload passes validation exactly when its four other
    required fields are well formed, its source is a string that, trimmed
    of surrounding whitespace, is the marker of ML payloads, and its items,
    if it carries any, all pass; the validated data are then the values
    sent, with the marker as the source, the list of items being absent
    when none was sent. *)
Theorem ml_validation_characterised (req : RequestData)
    (vd : MLAnalysisPayloadSerializer.ValidatedData) :
  MLAnalysisPayloadSerializer.run_validation req = inr vd ↔
  ∃ d ts n t s,
    document_id req = Given d ∧ detection_types req = Given ts ∧
    sensitive_items_count req = Given n ∧ processing_time req = Given t ∧
    source req = Given s ∧ strip s = "ml_model" ∧
    ((sensitive_items req = Absent ∧
      vd = MLAnalysisPayloadSerializer.mkValidated d ts n t "ml_model" None) ∨
     (∃ raws items,
        sensitive_items req = Given raws ∧
        SensitiveItemSerializer.run_validation_many raws = Some items ∧
        vd = MLAnalysisPayloadSerializer.mkValidated d ts n t "ml_model"
               (Some items))).
Proof.
  split.
  - intros Hv.
    destruct (run_validation_accepts req vd Hv)
      as (Hd & Hts & Hn & Ht & (s & Hs & Hstrip) & Hsrc & Herrs & Hitems).
    exists (MLAnalysisPayloadSerializer.v_document_id vd),
           (MLAnalysisPayloadSerializer.v_detection_types vd),
           (MLAnalysisPayloadSerializer.v_sensitive_items_count vd),
           (MLAnalysisPayloadSerializer.v_processing_time vd), s.
    do 6 (split; [done|]).
    destruct vd as [d ts n t s' items]. cbn in *. subst s'.
    unfold MLAnalysisPayloadSerializer.items_errors,
      MLAnalysisPayloadSerializer.validated_items in *.
    destruct (sensitive_items req) as [| |raws]; [left | done | right].
    + by subst items.
    + destruct (SensitiveItemSerializer.run_validation_many raws)
        as [its|] eqn:Hmany; [|done].
      exists raws, its. by subst items.
  - intros (d & ts & n & t & s & Hd & Hts & Hn & Ht & Hs & Hstrip & Hitems).
    destruct req as [fd fts fn ft fs fitems]. cbn in *. subst.
    destruct Hitems as [[-> ->] | (raws & items & -> & Hmany & ->)].
    + by rewrite run_validation_trims_source.
    + rewrite run_validation_trims_source; [|done|].
      * cbn. by rewrite Hmany.
      * cbn. by rewrite Hmany.
Qed.

(** The serializer takes a source padded with blanks for the marker; the
    view, which compares the string as sent, does not route such a request
    to it. *)
Lemma padded_source_is_trimmed :
  let req := mkRequestData (Given 7) (Given ["email"]) (Given 3)
               (Given (1 # 2)%Q) (Given " ml_model ") Absent in
  MLAnalysisPayloadSerializer.run_validation req
  = inr (MLAnalysisPayloadSerializer.mkValidated 7 ["email"] 3 (1 # 2)%Q
           "ml_model" None) ∧
  is_ml_payload req = false.
Proof. split; reflexivity. Qed.

End Validation.

(** ** Ingestion: what is written, in every outcome *)

Section IngestionOutcomes.

Import AnalysisViewSet.

Variable svc : Store → Z → ServiceResults.
Variable display : string → string.

(** What validation of an engine result hands on. *)
Lemma result_validation_accepts results vd :
  DetectionResultSerializer.run_validation results = inr vd →
  res_document_id results = Given (DetectionResultSerializer.v_document_id vd) ∧
  res_risk_level results = Given (DetectionResultSerializer.v_risk_level vd) ∧
  DetectionResultSerializer.v_risk_level vd
    ∈ DetectionResultSerializer.risk_level_choices ∧
  res_processing_time results
    = Given (DetectionResultSerializer.v_processing_time vd) ∧
  ∃ raws, res_sensitive_items results = Given raws ∧
          SensitiveItemSerializer.run_validation_many raws
          = Some (DetectionResultSerializer.v_sensitive_items vd).
Proof.
  unfold DetectionResultSerializer.run_validation,
    DetectionResultSerializer.check_risk_level,
    DetectionResultSerializer.check_items.
  destruct (res_document_id results) as [| |d]; try done.
  destruct (res_risk_level results) as [| |r]; try done.
  case_bool_decide as Hr; [|done].
  destruct (res_processing_time results) as [| |t]; try done.
  destruct (res_sensitive_items results) as [| |raws]; try done.
  destruct (SensitiveItemSerializer.run_validation_many raws)
    as [items|] eqn:Hmany; [|done].
  intros [= <-]. cbn. eauto 10.
Qed.

(** The rows written for validated items: one per item, with its values. *)
Lemma for_each_create_validated scan raws items u st :
  SensitiveItemSerializer.run_validation_many raws = Some items →
  ∃ rows,
    for_each items
      (DetectionResultSerializer.SensitiveInformation_objects_create_from scan)
      (mkEnv u st)
    = (mkEnv u (with_items st rows), inr tt) ∧
    Forall2 (row_of_item scan) raws rows.
Proof.
  unfold SensitiveItemSerializer.run_validation_many. rewrite mapM_Some.
  intros Hall. revert st.
  induction Hall as [|raw item raws items Hitem _ IH]; intros st.
  - exists []. split; [cbn; by rewrite with_items_nil | constructor].
  - apply item_validation_parts in Hitem
      as (t & c & Ht & Hc & Hloc & Hcount & ->).
    cbn [for_each foldr].
    fold (for_each items
            (DetectionResultSerializer.SensitiveInformation_objects_create_from
               scan)).
    unfold DetectionResultSerializer.SensitiveInformation_objects_create_from
      at 1.
    cbn [item_type item_confidence item_location item_count default].
    unfold SensitiveInformation_insert. run_m.
    match goal with
    | |- context [mkEnv u (mkStore _ _ _ (_ ++ [?row]) _ _)] =>
        fold (with_items st [row]);
        destruct (IH (with_items st [row])) as (rows & -> & Hrows);
        exists (row :: rows)
    end.
    split; [by rewrite with_items_app|].
    constructor; [|done]. by repeat split.
Qed.

Lemma result_create_effect (results : ResultData)
    (vd : DetectionResultSerializer.ValidatedData) (e : Env) (d : Document) :
  DetectionResultSerializer.run_validation results = inr vd →
  documents (db e) !! DetectionResultSerializer.v_document_id vd = Some d →
  ∃ scan rows raws,
    DetectionResultSerializer.create vd e
      = (mkEnv (request_user e) (ingested (db e) d scan rows), inr scan) ∧
    scan_id scan = next_scan_id (db e) ∧
    scan_document scan = doc_id d ∧
    res_risk_level results = Given (scan_risk_level scan) ∧
    res_processing_time results = Given (scan_processing_time scan) ∧
    res_sensitive_items results = Given raws ∧
    Forall2 (row_of_item scan) raws rows ∧
    length rows = length raws.
Proof.
  intros Hv Hd. destruct e as [u st]. cbn [request_user db] in *.
  destruct (result_validation_accepts results vd Hv)
    as (_ & Hrisk & _ & Htime & raws & Hraws & Hmany).
  set (scan := mkScan (next_scan_id st) (doc_id d)
                 (DetectionResultSerializer.v_risk_level vd)
                 (DetectionResultSerializer.v_processing_time vd) (now st)).
  destruct (for_each_create_validated scan raws _ u
              (mkStore (users st) (documents st) (scans st ++ [scan])
                 (sensitive_information st) (next_scan_id st + 1) (now st))
              Hmany) as (rows & Hfor & Hrows).
  exists scan, rows, raws.
  split; [|repeat split; try done; symmetry; by eapply Forall2_length].
  unfold DetectionResultSerializer.create, Document_objects_get,
    DocumentScan_objects_create, Document_save.
  run_m. rewrite Hd. run_m. fold scan. rewrite Hfor. done.
Qed.


(** X9: for an engine result that passes validation and names a stored
    document, [create] returns the new scan and writes exactly this: one
    scan, with the next key, the risk level and the processing time of the
    result as they came; one row per item of the result, in order, with
    the item's own type, confidence, location and count (1 if none came),
    never redacted; and the processed mark on the document.  Counters and
    everything else in the store stay as they were. *)
Theorem result_create_persists (results : ResultData)
    (vd : DetectionResultSerializer.ValidatedData) (e : Env) (d : Document) :
  DetectionResultSerializer.run_validation results = inr vd →
  documents (db e) !! DetectionResultSerializer.v_document_id vd = Some d →
  ∃ scan rows raws,
    DetectionResultSerializer.create vd e
      = (mkEnv (request_user e) (ingested (db e) d scan rows), inr scan) ∧
    scan_id scan = next_scan_id (db e) ∧
    scan_document scan = doc_id d ∧
    res_risk_level results = Given (scan_risk_level scan) ∧
    res_processing_time results = Given (scan_processing_time scan) ∧
    res_sensitive_items results = Given raws ∧
    Forall2 (row_of_item scan) raws rows ∧
    length rows = length raws.
Proof. apply result_create_effect. Qed.

Lemma result_create_persists_witness :
  let results := mkResultData (Given 7) (Given "medium") (Given 1%Q)
                   (Given [Example.email_item]) in
  let vd := DetectionResultSerializer.mkValidated 7 "medium" 1%Q
              [mkItemDict (Some "email") (Some (9 # 10)%Q) None (Some 1)] in
  DetectionResultSerializer.run_validation results = inr vd ∧
  documents (db Example.env0) !! DetectionResultSerializer.v_document_id vd
    = Some Example.doc7 ∧
  ∃ scan rows raws,
    DetectionResultSerializer.create vd Example.env0
      = (mkEnv (request_user Example.env0)
           (ingested (db Example.env0) Example.doc7 scan rows), inr scan) ∧
    scan_id scan = next_scan_id (db Example.env0) ∧
    scan_document scan = doc_id Example.doc7 ∧
    res_risk_level results = Given (scan_risk_level scan) ∧
    res_processing_time results = Given (scan_processing_time scan) ∧
    res_sensitive_items results = Given raws ∧
    Forall2 (row_of_item scan) raws rows ∧
    length rows = length raws.
Proof.
  intros results vd. split; [reflexivity|]. split; [reflexivity|].
  apply (result_create_persists results vd Example.env0 Example.doc7);
    reflexivity.
Defined.

Lemma filter_none_of {A} (P : A → Prop) `{∀ x, Decision (P x)} (l : list A) :
  Forall (λ x, ¬ P x) l → filter P l = [].
Proof.
  induction 1 as [|x l Hx _ IH]; [done|]. by rewrite filter_cons_False.
Qed.

Lemma filter_all_of {A} (P : A → Prop) `{∀ x, Decision (P x)} (l : list A) :
  Forall P l → filter P l = l.
Proof.
  induction 1 as [|x l Hx _ IH]; [done|].
  rewrite filter_cons_True by done. by rewrite IH.
Qed.

(** In a store in order no item points at the key of the next scan. *)
Lemma items_below st :
  store_ok st →
  Forall (λ si, si_scan si < next_scan_id st) (sensitive_information st).
Proof.
  intros [_ _ Hbelow _ Hitems]. eapply Forall_impl; [exact Hitems|].
  intros si (s & Hs & <-)%Exists_exists.
  rewrite Forall_forall in Hbelow. by apply Hbelow.
Qed.

Lemma rows_of_scan scan raws rows :
  Forall2 (row_of_item scan) raws rows →
  Forall (λ si, si_scan si = scan_id scan) rows.
Proof.
  induction 1 as [|raw row raws rows (Hscan & _) _ IH]; constructor; done.
Qed.

(** The items the store holds for a scan just made in a store in order
    are the rows just written. *)
Lemma persisted_items_ingested st d scan rows :
  store_ok st →
  scan_id scan = next_scan_id st →
  Forall (λ si, si_scan si = scan_id scan) rows →
  persisted_items (ingested st d scan rows) scan = rows.
Proof.
  intros Hok Hid Hrows. unfold persisted_items, ingested.
  cbn [sensitive_information]. rewrite filter_app.
  rewrite filter_none_of, filter_all_of; [done | done |].
  eapply Forall_impl; [by apply items_below|].
  intros si Hlt. cbn in Hlt. lia.
Qed.

Lemma analyze_validation_owned req e id d :
  document_id req = Given id →
  documents (db e) !! id = Some d →
  doc_user d = user_id (request_user e) →
  AnalyzeDocumentSerializer.run_validation req e = (e, inr (inr id)).
Proof.
  intros Hid Hd Hown.
  unfold AnalyzeDocumentSerializer.run_validation,
    AnalyzeDocumentSerializer.validate_document_id, Document_objects_get.
  rewrite Hid. run_m. rewrite Hd. run_m.
  by rewrite bool_decide_eq_false_2 by (by intros ?).
Qed.

(** X10: a backend analysis in a store in order, asked for by the owner
    of the document, for which the engine hands back a result that passes
    validation and names a stored document, is answered 201.  The scan is
    made for the document the result names; the count sent back, and the
    count that drives the counter update, is the number of items of the
    result; risk level and processing time sent back are those of the
    result; the items sent back are the rows just written, each with its
    type and the label of that type. *)
Theorem backend_analysis_effect (req : RequestData) (e : Env) (id : Z)
    (owned d : Document) (results : ResultData)
    (vd : DetectionResultSerializer.ValidatedData) (row : User) :
  store_ok (db e) →
  document_id req = Given id →
  documents (db e) !! id = Some owned →
  doc_user owned = user_id (request_user e) →
  svc (db e) id = Results results →
  DetectionResultSerializer.run_validation results = inr vd →
  documents (db e) !! DetectionResultSerializer.v_document_id vd = Some d →
  users (db e) !! user_id (request_user e) = Some row →
  ∃ scan rows raws,
    res_sensitive_items results = Given raws ∧
    Forall2 (row_of_item scan) raws rows ∧
    scan_document scan = doc_id d ∧
    res_risk_level results = Given (scan_risk_level scan) ∧
    res_processing_time results = Given (scan_processing_time scan) ∧
    let k := Z.of_nat (length raws) in
    _handle_backend_analysis svc display req e
    = (mkEnv (request_user e)
         (set_users (counted k (user_id (request_user e)) row (users (db e)))
            (ingested (db e) d scan rows)),
       inr (mkResponse HTTP_201_CREATED (JDict [
              ("scan_id", JInt (scan_id scan));
              ("document_id", JInt (scan_document scan));
              ("risk_level", JStr (scan_risk_level scan));
              ("processing_time", JFloat (scan_processing_time scan));
              ("scan_date", JInt (scan_date scan));
              ("sensitive_items_count", JInt k);
              ("sensitive_items", JList (item_json display <$> rows))]))).
Proof.
  intros Hok Hid Howned Hown Hsvc Hv Hd Hrow.
  destruct (result_create_effect results vd e d Hv Hd)
    as (scan & rows & raws & Hcreate & Hsid & Hdoc & Hrisk & Htime & Hraws
        & Hrows & Hlen).
  exists scan, rows, raws. do 5 (split; [done|]). cbn zeta.
  unfold _handle_backend_analysis, bind at 1.
  rewrite (analyze_validation_owned req e id owned) by done.
  unfold bind at 1, get_db. rewrite Hsvc, Hv.
  unfold bind at 1. rewrite Hcreate.
  unfold scan_sensitive_information_count, scan_sensitive_information.
  run_m.
  fold (persisted_items (ingested (db e) d scan rows) scan).
  rewrite persisted_items_ingested by eauto using rows_of_scan.
  rewrite Hlen. unfold counted.
  destruct (bool_decide (Z.of_nat (length raws) > 0));
    unfold save_F_expression; cbn [request_user db ingested users];
    rewrite Hrow; run_m;
    match goal with
    | |- context [filter ?P (sensitive_information (set_users ?us ?st))] =>
        change (filter P (sensitive_information (set_users us st)))
          with (persisted_items st scan)
    end;
    rewrite persisted_items_ingested by eauto using rows_of_scan;
    done.
Qed.

(** An accepted ML payload for a stored document, posted for a user
    whose row is gone: the counter update fails, the answer is 400, and
    the scan, its items and the processed mark stay written. *)
Lemma handle_ml_payload_counter_failure req vd e d :
  MLAnalysisPayloadSerializer.run_validation req = inr vd →
  documents (db e) !! MLAnalysisPayloadSerializer.v_document_id vd = Some d →
  users (db e) !! user_id (request_user e) = None →
  _handle_ml_payload req e
  = (mkEnv (request_user e)
       (ingested (db e) d (ml_scan (db e) d vd) (ml_rows (db e) d vd)),
     inr (mkResponse HTTP_400_BAD_REQUEST
            (JDict [("error",
                     JStr ("Failed to process ML payload: "
                           +:+ exn_message DatabaseError))]))).
Proof.
  intros Hv Hd Hrow. unfold _handle_ml_payload. rewrite Hv.
  destruct e as [u st]. cbn [request_user db] in *.
  unfold try_except, bind at 1.
  rewrite (create_ml_analysis_result_effect vd u st d) by done.
  destruct (bool_decide (MLAnalysisPayloadSerializer.v_sensitive_items_count vd > 0));
    unfold bind, save_F_expression, ret;
    cbn [request_user db ingested users]; rewrite Hrow; done.
Qed.

Lemma ml_rows_of_scan st d vd :
  Forall (λ si, si_scan si = scan_id (ml_scan st d vd)) (ml_rows st d vd).
Proof. unfold ml_rows. apply Forall_fmap, Forall_forall. done. Qed.

Lemma counted_moves_one n uid row us :
  ∃ c m, counted n uid row us = incremented c m uid row us.
Proof. unfold counted. destruct (bool_decide (n > 0)); eauto. Qed.

(** Whatever the request and however it ends, the ML handler leaves the
    store as it was or with one ingestion. *)
Lemma handle_ml_payload_outcome req e :
  ∃ e' o, _handle_ml_payload req e = (e', o) ∧
    request_user e' = request_user e ∧
    (db e' = db e ∨ one_ingestion (user_id (request_user e)) (db e) (db e')).
Proof.
  destruct (MLAnalysisPayloadSerializer.run_validation req)
    as [errs|vd] eqn:Hv.
  { rewrite (handle_ml_payload_rejected _ errs) by done. eauto 6. }
  destruct (documents (db e) !! MLAnalysisPayloadSerializer.v_document_id vd)
    as [d|] eqn:Hd.
  2: { destruct (handle_ml_payload_missing_document req vd e Hv Hd) as [b ->].
       eauto 6. }
  destruct (users (db e) !! user_id (request_user e)) as [row|] eqn:Hrow.
  - rewrite (handle_ml_payload_effect req vd e d row Hv Hd Hrow).
    do 2 eexists. split; [reflexivity|]. cbn [request_user db].
    split; [done|]. right.
    destruct (counted_moves_one
                (MLAnalysisPayloadSerializer.v_sensitive_items_count vd)
                (user_id (request_user e)) row (users (db e)))
      as (c & m & ->).
    exists (MLAnalysisPayloadSerializer.v_document_id vd), d,
      (ml_scan (db e) d vd), (ml_rows (db e) d vd),
      (incremented c m (user_id (request_user e)) row (users (db e))).
    split; [done|]. split; [done|]. split; [done|].
    split; [apply ml_rows_of_scan|]. split; [|done]. right. eauto.
  - rewrite (handle_ml_payload_counter_failure req vd e d Hv Hd Hrow).
    do 2 eexists. split; [reflexivity|]. cbn [request_user db].
    split; [done|]. right.
    exists (MLAnalysisPayloadSerializer.v_document_id vd), d,
      (ml_scan (db e) d vd), (ml_rows (db e) d vd), (users (db e)).
    split; [done|]. split; [done|]. split; [done|].
    split; [apply ml_rows_of_scan|]. split; [by left|].
    by destruct (db e).
Qed.

(** The same for the backend handler, the outcomes in which it raises
    included. *)
Lemma handle_backend_outcome req e :
  ∃ e' o, _handle_backend_analysis svc display req e = (e', o) ∧
    request_user e' = request_user e ∧
    (db e' = db e ∨ one_ingestion (user_id (request_user e)) (db e) (db e')).
Proof.
  destruct (analyze_validation req e) as (r & Hval & _).
  unfold _handle_backend_analysis, bind at 1. rewrite Hval.
  destruct r as [errs|id]; [by (run_m; eauto 6)|].
  unfold bind at 1, get_db.
  destruct (svc (db e) id) as [msg|results]; [by (run_m; eauto 6)|].
  destruct (DetectionResultSerializer.run_validation results)
    as [errs|vd] eqn:Hv; [by (run_m; eauto 6)|].
  destruct (documents (db e) !! DetectionResultSerializer.v_document_id vd)
    as [d|] eqn:Hd.
  2: { unfold bind at 1. destruct e as [u st]. cbn [db] in Hd.
       rewrite create_missing by done. eauto 6. }
  destruct (result_create_effect results vd e d Hv Hd)
    as (scan & rows & raws & Hcreate & Hsid & Hdoc & _ & _ & _ & Hrows & _).
  unfold bind at 1. rewrite Hcreate.
  unfold scan_sensitive_information_count, scan_sensitive_information.
  run_m.
  assert (Hshape : ∀ us',
    (us' = users (db e) ∨
     ∃ row c n, users (db e) !! user_id (request_user e) = Some row ∧
                us' = incremented c n (user_id (request_user e)) row
                        (users (db e))) →
    one_ingestion (user_id (request_user e)) (db e)
      (set_users us' (ingested (db e) d scan rows))).
  { intros us' Hus.
    exists (DetectionResultSerializer.v_document_id vd), d, scan, rows, us'.
    eauto 10 using rows_of_scan. }
  destruct (users (db e) !! user_id (request_user e)) as [row|] eqn:Hrow.
  - match goal with
    | |- context [bool_decide ?P] => destruct (bool_decide P)
    end; unfold save_F_expression; cbn [request_user db ingested users];
      rewrite Hrow; run_m; do 2 eexists; (split; [reflexivity|]);
      cbn [request_user db]; (split; [done|]); right; apply Hshape; right;
      eauto.
  - match goal with
    | |- context [bool_decide ?P] => destruct (bool_decide P)
    end; unfold save_F_expression; cbn [request_user db ingested users];
      rewrite Hrow; run_m; do 2 eexists; (split; [reflexivity|]);
      cbn [request_user db]; (split; [done|]); right;
      (replace (ingested (db e) d scan rows)
         with (set_users (users (db e)) (ingested (db e) d scan rows))
         by done);
      apply Hshape; by left.
Qed.

Lemma create_outcome req e :
  ∃ e' o, create svc display req e = (e', o) ∧
    request_user e' = request_user e ∧
    (db e' = db e ∨ one_ingestion (user_id (request_user e)) (db e) (db e')).
Proof.
  rewrite create_routes. destruct (is_ml_payload req);
    [apply handle_ml_payload_outcome | apply handle_backend_outcome].
Qed.

Lemma one_ingestion_keeps_order uid st st' :
  store_ok st → one_ingestion uid st st' → store_ok st'.
Proof.
  intros [Hkeyed Hdistinct Hbelow Hdocs Hitems]
    (k & d & scan & rows & us' & Hd & Hsid & Hdoc & Hrows & _ & ->).
  unfold set_users, ingested. split; cbn.
  - apply map_Forall_insert_2; [done | exact Hkeyed].
  - rewrite fmap_app. apply NoDup_app. split; [done|]. split.
    + intros x Hx Hin. apply list_elem_of_fmap in Hx as (s & Heq & Hs).
      apply list_elem_of_singleton in Hin.
      rewrite Forall_forall in Hbelow. specialize (Hbelow s Hs).
      cbn in Hbelow. lia.
    + apply NoDup_singleton.
  - apply Forall_app. split.
    + eapply Forall_impl; [exact Hbelow|]. cbn. intros; lia.
    + constructor; [lia | constructor].
  - apply Forall_app. split.
    + eapply Forall_impl; [exact Hdocs|]. cbn. intros s Hs.
      apply lookup_insert_is_Some'. by right.
    + constructor; [|constructor]. rewrite Hdoc, lookup_insert_eq. eauto.
  - apply Forall_app. split.
    + eapply Forall_impl; [exact Hitems|]. cbn. intros si Hsi.
      apply Exists_app. by left.
    + eapply Forall_impl; [exact Hrows|]. cbn. intros si Hsi.
      apply Exists_app. right. by constructor.
Qed.

Lemma one_ingestion_grows uid st st' :
  store_ok st → one_ingestion uid st st' →
  grows st st' ∧ ∀ uid', uid' ≠ uid → users st' !! uid' = users st !! uid'.
Proof.
  intros [Hkeyed _ _ _ _]
    (k & d & scan & rows & us' & Hd & Hsid & Hdoc & Hrows & Hus & ->).
  unfold set_users, ingested. split; [split; cbn|cbn].
  - by apply prefix_app_r.
  - by apply prefix_app_r.
  - intros k0 d0 Hd0. destruct (decide (doc_id d = k0)) as [<-|Hne].
    + rewrite lookup_insert_eq.
      assert (doc_id d = k) as Hk by (by apply (Hkeyed k d)).
      rewrite Hk in Hd0. simplify_eq. eauto.
    + rewrite lookup_insert_ne by done. eauto.
  - intros uid0 Hsome.
    destruct Hus as [->|(row & c & n & Hrow & ->)]; [done|].
    unfold incremented. apply lookup_insert_is_Some'. by right.
  - intros uid' Hne.
    destruct Hus as [->|(row & c & n & Hrow & ->)]; [done|].
    unfold incremented. by rewrite lookup_insert_ne.
Qed.

(** X11: [POST /analyze] keeps a store in order, whatever the request
    and however it ends, an exception included: documents stay under
    their own keys, scan keys stay distinct and below the next key, every
    scan still has its document and every item its scan. *)
Theorem analyze_keeps_store_in_order (req : RequestData) (e : Env) :
  store_ok (db e) → store_ok (db (create svc display req e).1).
Proof.
  intros Hok.
  destruct (create_outcome req e) as (e' & o & Hrun & _ & Hcase).
  rewrite Hrun. cbn [fst]. destruct Hcase as [->|Hone]; [done|].
  by eapply one_ingestion_keeps_order.
Qed.

(** X12: [POST /analyze] on a store in order only adds to it, whatever
    the request and however it ends: the scans and items that were there
    are still there, unchanged and in place; no document and no user is
    removed; no document changes owner or title or loses its processed
    mark; and the rows of users other than the requesting one are
    untouched. *)
Theorem analyze_only_appends (req : RequestData) (e : Env) :
  store_ok (db e) →
  let e' := (create svc display req e).1 in
  grows (db e) (db e') ∧
  (∀ uid, uid ≠ user_id (request_user e) →
          users (db e') !! uid = users (db e) !! uid).
Proof.
  intros Hok. cbn zeta.
  destruct (create_outcome req e) as (e' & o & Hrun & Hu & Hcase).
  rewrite Hrun. cbn [fst]. destruct Hcase as [->|Hone].
  - split; [|done]. split; eauto.
  - by destruct (one_ingestion_grows _ _ _ Hok Hone).
Qed.

End IngestionOutcomes.

(** ** Ingestion: failures after validation *)

Section IngestionFailures.

Import AnalysisViewSet.

Variable svc : Store → Z → ServiceResults.
Variable display : string → string.

(** X13: the ML handler never lets an exception out: whatever the
    payload and the store, it answers, with 201 or with 400. *)
Theorem ml_payload_always_answers (req : RequestData) (e : Env) :
  ∃ e' resp, _handle_ml_payload req e = (e', inr resp) ∧
    (status_code resp = HTTP_201_CREATED ∨
     status_code resp = HTTP_400_BAD_REQUEST).
Proof.
  destruct (MLAnalysisPayloadSerializer.run_validation req)
    as [errs|vd] eqn:Hv.
  { rewrite (handle_ml_payload_rejected _ errs) by done. eauto. }
  destruct (documents (db e) !! MLAnalysisPayloadSerializer.v_document_id vd)
    as [d|] eqn:Hd.
  2: { destruct (handle_ml_payload_missing_document req vd e Hv Hd) as [b ->].
       eauto. }
  destruct (users (db e) !! user_id (request_user e)) as [row|] eqn:Hrow.
  - rewrite (handle_ml_payload_effect req vd e d row Hv Hd Hrow). eauto.
  - rewrite (handle_ml_payload_counter_failure req vd e d Hv Hd Hrow). eauto.
Qed.

(** X14: the scan and the counter update of the ML handler are two
    steps, and the first is not undone when the second fails.  An
    accepted payload for a stored document, posted for a user whose row
    is not in the store, is answered 400; yet the new scan and its items
    are in the store and the document is marked processed. *)
Theorem ml_counter_failure_keeps_scan (req : RequestData)
    (vd : MLAnalysisPayloadSerializer.ValidatedData) (e : Env) (d : Document) :
  MLAnalysisPayloadSerializer.run_validation req = inr vd →
  documents (db e) !! MLAnalysisPayloadSerializer.v_document_id vd = Some d →
  users (db e) !! user_id (request_user e) = None →
  ∃ e' resp scan,
    _handle_ml_payload req e = (e', inr resp) ∧
    status_code resp = HTTP_400_BAD_REQUEST ∧
    scans (db e') = scans (db e) ++ [scan] ∧
    scan_document scan = doc_id d ∧
    sensitive_information (db e')
      = sensitive_information (db e) ++ ml_rows (db e) d vd ∧
    doc_processed <$> documents (db e') !! doc_id d = Some true ∧
    users (db e') = users (db e).
Proof.
  intros Hv Hd Hrow.
  rewrite (handle_ml_payload_counter_failure req vd e d Hv Hd Hrow).
  do 3 eexists. split; [reflexivity|]. split; [done|].
  cbn [db ingested scans sensitive_information documents users].
  split; [done|]. split; [done|]. split; [done|].
  by rewrite lookup_insert_eq.
Qed.

(** X15: the backend handler looks the document up a second time, by
    the key the engine's result carries.  When that key has no document,
    the [DoesNotExist] of the lookup leaves the handler unhandled, and
    nothing has been written. *)
Theorem backend_analysis_raises_for_unknown_result_document
    (req : RequestData) (e : Env) (id : Z) (owned : Document)
    (results : ResultData) (vd : DetectionResultSerializer.ValidatedData) :
  document_id req = Given id →
  documents (db e) !! id = Some owned →
  doc_user owned = user_id (request_user e) →
  svc (db e) id = Results results →
  DetectionResultSerializer.run_validation results = inr vd →
  documents (db e) !! DetectionResultSerializer.v_document_id vd = None →
  _handle_backend_analysis svc display req e = (e, inl DoesNotExist).
Proof.
  intros Hid Howned Hown Hsvc Hv Hd.
  unfold _handle_backend_analysis, bind at 1.
  rewrite (analyze_validation_owned req e id owned) by done.
  unfold bind at 1, get_db. rewrite Hsvc, Hv.
  unfold bind at 1. destruct e as [u st]. cbn [db] in Hd.
  by rewrite create_missing.
Qed.

End IngestionFailures.

(** ** The document endpoint: updates and queries *)

Section DocumentSurface.

(** X16: an update of a document that is not there, or that belongs to
    someone else, raises 404 at the first lookup: no document is written
    and no counter moves. *)
Theorem perform_update_not_found (e : Env) (pk : Z)
    (serializer : DocumentSerializer) :
  (documents (db e) !! pk = None ∨
   ∃ d, documents (db e) !! pk = Some d ∧
        doc_user d ≠ user_id (request_user e)) →
  DocumentViewSet.perform_update pk serializer e = (e, inl Http404).
Proof.
  intros Hcase. unfold DocumentViewSet.perform_update,
    DocumentViewSet.get_object.
  run_m. destruct Hcase as [->|(d & -> & Hne)]; [done|].
  by rewrite bool_decide_eq_false_2.
Qed.

Lemma perform_update_not_found_witness :
  (documents (db Example.env0) !! 8 = None ∨
   ∃ d, documents (db Example.env0) !! 8 = Some d ∧
        doc_user d ≠ user_id (request_user Example.env0)) ∧
  DocumentViewSet.perform_update 8
    (mkDocumentSerializer Example.doc8 (mkDocumentUpdate None (Some true)))
    Example.env0 = (Example.env0, inl Http404).
Proof.
  assert (H : documents (db Example.env0) !! 8 = None ∨
              ∃ d, documents (db Example.env0) !! 8 = Some d ∧
                   doc_user d ≠ user_id (request_user Example.env0)).
  { right. exists Example.doc8. split; [reflexivity | by cbn]. }
  split; [exact H|].
  exact (perform_update_not_found Example.env0 8 _ H).
Defined.

(** X17: the write of an update and the counter update that may follow
    are two steps, and the first is not undone when the second fails.
    For a document of the requesting user, however [perform_update] ends,
    the store it leaves is the store [serializer.save()] leaves, up to
    the users table: the document is written, and scans and items are as
    [save] left them. *)
Theorem perform_update_keeps_saved_document (e : Env) (pk : Z)
    (serializer : DocumentSerializer) (d : Document) :
  documents (db e) !! pk = Some d →
  doc_user d = user_id (request_user e) →
  let saved := db (DocumentSerializer_save serializer e).1 in
  ∃ us, db (DocumentViewSet.perform_update pk serializer e).1
        = set_users us saved.
Proof.
  intros Hd Hown saved. subst saved. destruct e as [u st].
  cbn [request_user db] in *.
  unfold DocumentViewSet.perform_update, DocumentViewSet.get_object,
    DocumentSerializer_save, Document_save.
  run_m. rewrite Hd. run_m. rewrite (bool_decide_eq_true_2 _ Hown). run_m.
  match goal with
  | |- context [if ?b then _ else _] => destruct b
  end.
  - unfold UserStatsService.increment_documents_processed,
      UserStatsService.logged, UserStatsService.add_attr, atomic,
      save_update_fields.
    run_m. rewrite counter_set_user_id. unfold set_documents at 1.
    cbn [users].
    destruct (users st !! user_id u); cbn [request_user db fst snd].
    + by eexists.
    + exists (users st). by destruct st.
  - exists (users st). by destruct st.
Qed.

Lemma perform_update_keeps_saved_document_witness :
  let serializer := mkDocumentSerializer Example.doc7
                      (mkDocumentUpdate None (Some true)) in
  let e := mkEnv (mkUser 1 0 0 0 0 0)
             (set_users ∅ Example.store0) in
  documents (db e) !! 7 = Some Example.doc7 ∧
  doc_user Example.doc7 = user_id (request_user e) ∧
  let saved := db (DocumentSerializer_save serializer e).1 in
  ∃ us, db (DocumentViewSet.perform_update 7 serializer e).1
        = set_users us saved.
Proof.
  intros serializer e. split; [reflexivity|]. split; [reflexivity|].
  apply (perform_update_keeps_saved_document e 7 serializer Example.doc7);
    reflexivity.
Defined.

(** X20: creating a document, with the user object as loaded for the
    request, stores the document as a document of the requesting user,
    whoever the submitted data named as owner, and adds exactly one to
    the user's documents-saved counter; no other counter, no other user,
    no scan and no item is touched. *)
Theorem perform_create_counts_document (e : Env) (new_document : Document) :
  users (db e) !! user_id (request_user e) = Some (request_user e) →
  let uid := user_id (request_user e) in
  let stored := mkDocument (doc_id new_document) uid
                  (doc_title new_document) (doc_processed new_document) in
  ∃ u',
    DocumentViewSet.perform_create new_document e
    = (mkEnv u'
         (set_users (incremented documents_saved 1 uid (request_user e)
                       (users (db e)))
            (set_documents (<[doc_id new_document := stored]>
                              (documents (db e))) (db e))),
       inr tt) ∧
    u' = counter_set documents_saved
           (counter_get documents_saved (request_user e) + 1) (request_user e).
Proof.
  intros Hrow uid stored. destruct e as [u st]. cbn [request_user db] in *.
  eexists. split; [|reflexivity].
  unfold DocumentViewSet.perform_create, Document_save,
    UserStatsService.increment_documents_saved, UserStatsService.logged,
    UserStatsService.add_attr, atomic, save_update_fields.
  run_m. rewrite counter_set_user_id. unfold set_documents at 1.
  cbn [users doc_id]. rewrite Hrow. cbn [write_columns foldr].
  by rewrite counter_get_set.
Qed.

Lemma perform_create_counts_document_witness :
  let new_document := mkDocument 10 2 "scan" false in
  let e := Example.env0 in
  users (db e) !! user_id (request_user e) = Some (request_user e) ∧
  let uid := user_id (request_user e) in
  let stored := mkDocument (doc_id new_document) uid
                  (doc_title new_document) (doc_processed new_document) in
  ∃ u',
    DocumentViewSet.perform_create new_document e
    = (mkEnv u'
         (set_users (incremented documents_saved 1 uid (request_user e)
                       (users (db e)))
            (set_documents (<[doc_id new_document := stored]>
                              (documents (db e))) (db e))),
       inr tt) ∧
    u' = counter_set documents_saved
           (counter_get documents_saved (request_user e) + 1) (request_user e).
Proof.
  intros new_document e. split; [reflexivity|].
  apply (perform_create_counts_document e new_document). reflexivity.
Defined.

End DocumentSurface.

Section Queries.

Lemma elem_of_rows (m : gmap Z Document) (d : Document) :
  d ∈ (map_to_list m).*2 ↔ ∃ k, m !! k = Some d.
Proof.
  rewrite list_elem_of_fmap. split.
  - intros ([k d'] & -> & Hin). exists k. by apply elem_of_map_to_list.
  - intros [k Hk]. exists (k, d). split; [done|].
    by apply elem_of_map_to_list.
Qed.

(** X18: the documents a request can list or address are its user's
    own.  In a store whose documents sit under their own keys, the
    queryset of an authenticated request holds exactly the stored
    documents of the requesting user; [get_object] finds a key exactly
    when the document under it is in that queryset and raises 404
    otherwise; the schema generator and a request that is not
    authenticated get the empty queryset.  None of this writes. *)
Theorem document_queryset_scoped (e : Env) (pk : Z) :
  map_Forall (λ k d, doc_id d = k) (documents (db e)) →
  ∃ docs,
    DocumentViewSet.get_queryset false true e = (e, inr docs) ∧
    (∀ d, d ∈ docs ↔
          documents (db e) !! doc_id d = Some d ∧
          doc_user d = user_id (request_user e)) ∧
    (∀ d, DocumentViewSet.get_object pk e = (e, inr d) ↔
          d ∈ docs ∧ doc_id d = pk) ∧
    ((∀ d, ¬ (d ∈ docs ∧ doc_id d = pk)) →
     DocumentViewSet.get_object pk e = (e, inl Http404)) ∧
    (∀ authenticated,
       DocumentViewSet.get_queryset true authenticated e = (e, inr [])) ∧
    DocumentViewSet.get_queryset false false e = (e, inr []).
Proof.
  intros Hkeyed. eexists. split; [reflexivity|].
  assert (Hin : ∀ d,
    d ∈ filter (λ d, doc_user d = user_id (request_user e))
          (map_to_list (documents (db e))).*2 ↔
    documents (db e) !! doc_id d = Some d ∧
    doc_user d = user_id (request_user e)).
  { intros d. rewrite list_elem_of_filter, elem_of_rows. split.
    - intros [Hown [k Hk]]. split; [|done].
      by rewrite (Hkeyed k d Hk).
    - intros [Hd Hown]. eauto. }
  split; [exact Hin|].
  unfold DocumentViewSet.get_object. run_m.
  split; [|split; [|done]].
  - intros d. rewrite Hin. split.
    + destruct (documents (db e) !! pk) as [d'|] eqn:Hd'; [|done].
      case_bool_decide as Hown; [|done]. intros [= <-].
      pose proof (Hkeyed pk d' Hd') as Hpk. cbn in Hpk.
      by rewrite Hpk.
    + intros [[Hd Hown] <-]. rewrite Hd.
      by rewrite bool_decide_eq_true_2.
  - intros Hnone.
    destruct (documents (db e) !! pk) as [d'|] eqn:Hd'; [|done].
    case_bool_decide as Hown; [|done].
    exfalso. apply (Hnone d'). rewrite Hin.
    pose proof (Hkeyed pk d' Hd') as Hpk. cbn in Hpk.
    by rewrite Hpk.
Qed.

Lemma example_documents_keyed :
  map_Forall (λ k d, doc_id d = k) (documents Example.store0).
Proof.
  unfold Example.store0. cbn [documents].
  repeat (apply map_Forall_insert_2; [reflexivity|]).
  apply map_Forall_empty.
Defined.

Lemma document_queryset_scoped_witness :
  map_Forall (λ k d, doc_id d = k) (documents (db Example.env0)) ∧
  ∃ docs,
    DocumentViewSet.get_queryset false true Example.env0
      = (Example.env0, inr docs) ∧
    (∀ d, d ∈ docs ↔
          documents (db Example.env0) !! doc_id d = Some d ∧
          doc_user d = user_id (request_user Example.env0)) ∧
    (∀ d, DocumentViewSet.get_object 7 Example.env0 = (Example.env0, inr d) ↔
          d ∈ docs ∧ doc_id d = 7) ∧
    ((∀ d, ¬ (d ∈ docs ∧ doc_id d = 7)) →
     DocumentViewSet.get_object 7 Example.env0 = (Example.env0, inl Http404)) ∧
    (∀ authenticated,
       DocumentViewSet.get_queryset true authenticated Example.env0
       = (Example.env0, inr [])) ∧
    DocumentViewSet.get_queryset false false Example.env0
      = (Example.env0, inr []).
Proof.
  split; [exact example_documents_keyed|].
  exact (document_queryset_scoped Example.env0 7 example_documents_keyed).
Defined.

(** X19: the scans a request can see are those of its user's documents.
    In a store whose documents sit under their own keys, the [scans]
    action on a document of the requesting user returns exactly the
    stored scans of that document, in order, each of which is also in the
    queryset of the scan endpoint; on any other key it raises 404.  The
    queryset of the scan endpoint holds exactly the stored scans whose
    document is stored and belongs to the requesting user. *)
Theorem scans_scoped (e : Env) (pk : Z) :
  map_Forall (λ k d, doc_id d = k) (documents (db e)) →
  ∃ visible,
    DocumentScanViewSet.get_queryset false true e = (e, inr visible) ∧
    (∀ s, s ∈ visible ↔
          s ∈ scans (db e) ∧
          ∃ d, documents (db e) !! scan_document s = Some d ∧
               doc_user d = user_id (request_user e)) ∧
    (∀ d, documents (db e) !! pk = Some d →
          doc_user d = user_id (request_user e) →
          DocumentViewSet.scans pk e
            = (e, inr (filter (λ s, scan_document s = pk) (scans (db e)))) ∧
          ∀ s, s ∈ filter (λ s, scan_document s = pk) (scans (db e)) →
               s ∈ visible) ∧
    ((documents (db e) !! pk = None ∨
      ∃ d, documents (db e) !! pk = Some d ∧
           doc_user d ≠ user_id (request_user e)) →
     DocumentViewSet.scans pk e = (e, inl Http404)).
Proof.
  intros Hkeyed. eexists. split; [reflexivity|].
  assert (Hin : ∀ s,
    s ∈ filter (λ s, DocumentScanViewSet.of_user (db e)
                       (user_id (request_user e)) s = true) (scans (db e)) ↔
    s ∈ scans (db e) ∧
    ∃ d, documents (db e) !! scan_document s = Some d ∧
         doc_user d = user_id (request_user e)).
  { intros s. rewrite list_elem_of_filter.
    unfold DocumentScanViewSet.of_user. split.
    - intros [Hof Hs]. split; [done|].
      destruct (documents (db e) !! scan_document s) as [d|]; [|done].
      exists d. split; [done|]. by apply bool_decide_eq_true in Hof.
    - intros [Hs (d & -> & Hown)]. split; [|done].
      by apply bool_decide_eq_true. }
  split; [exact Hin|].
  unfold DocumentViewSet.scans, DocumentViewSet.get_object. run_m.
  split.
  - intros d Hd Hown. rewrite Hd, (bool_decide_eq_true_2 _ Hown).
    pose proof (Hkeyed pk d Hd) as Hpk. cbn in Hpk. rewrite Hpk.
    split; [done|].
    intros s [Hdoc Hs]%list_elem_of_filter. apply Hin. split; [done|].
    exists d. by rewrite Hdoc.
  - intros [->|(d & -> & Hne)]; [done|].
    by rewrite bool_decide_eq_false_2.
Qed.

Lemma scans_scoped_witness :
  map_Forall (λ k d, doc_id d = k) (documents (db Example.env0)) ∧
  ∃ visible,
    DocumentScanViewSet.get_queryset false true Example.env0
      = (Example.env0, inr visible) ∧
    (∀ s, s ∈ visible ↔
          s ∈ scans (db Example.env0) ∧
          ∃ d, documents (db Example.env0) !! scan_document s = Some d ∧
               doc_user d = user_id (request_user Example.env0)) ∧
    (∀ d, documents (db Example.env0) !! 7 = Some d →
          doc_user d = user_id (request_user Example.env0) →
          DocumentViewSet.scans 7 Example.env0
            = (Example.env0,
               inr (filter (λ s, scan_document s = 7)
                      (scans (db Example.env0)))) ∧
          ∀ s, s ∈ filter (λ s, scan_document s = 7)
                     (scans (db Example.env0)) →
               s ∈ visible) ∧
    ((documents (db Example.env0) !! 7 = None ∨
      ∃ d, documents (db Example.env0) !! 7 = Some d ∧
           doc_user d ≠ user_id (request_user Example.env0)) →
     DocumentViewSet.scans 7 Example.env0 = (Example.env0, inl Http404)).
Proof.
  split; [exact example_documents_keyed|].
  exact (scans_scoped Example.env0 7 example_documents_keyed).
Defined.

End Queries.

(** ** The statements above on concrete requests *)

Section Instances.

Import AnalysisViewSet.

Lemma example_store_ok : store_ok Example.store0.
Proof.
  split; cbn [Example.store0 documents scans sensitive_information].
  - exact example_documents_keyed.
  - constructor.
  - constructor.
  - constructor.
  - constructor.
Defined.

Lemma backend_analysis_effect_witness :
  let req := Example.backend_request 7 Absent in
  let results := mkResultData (Given 7) (Given "medium") (Given 1%Q)
                   (Given [Example.email_item]) in
  let vd := DetectionResultSerializer.mkValidated 7 "medium" 1%Q
              [mkItemDict (Some "email") (Some (9 # 10)%Q) None (Some 1)] in
  let e := Example.env0 in
  store_ok (db e) ∧
  document_id req = Given 7 ∧
  documents (db e) !! 7 = Some Example.doc7 ∧
  doc_user Example.doc7 = user_id (request_user e) ∧
  Example.one_email (db e) 7 = Results results ∧
  DetectionResultSerializer.run_validation results = inr vd ∧
  documents (db e) !! DetectionResultSerializer.v_document_id vd
    = Some Example.doc7 ∧
  users (db e) !! user_id (request_user e) = Some Example.alice ∧
  ∃ scan rows raws,
    res_sensitive_items results = Given raws ∧
    Forall2 (row_of_item scan) raws rows ∧
    scan_document scan = doc_id Example.doc7 ∧
    res_risk_level results = Given (scan_risk_level scan) ∧
    res_processing_time results = Given (scan_processing_time scan) ∧
    let k := Z.of_nat (length raws) in
    _handle_backend_analysis Example.one_email Example.labels req e
    = (mkEnv (request_user e)
         (set_users (counted k (user_id (request_user e)) Example.alice
                       (users (db e)))
            (ingested (db e) Example.doc7 scan rows)),
       inr (mkResponse HTTP_201_CREATED (JDict [
              ("scan_id", JInt (scan_id scan));
              ("document_id", JInt (scan_document scan));
              ("risk_level", JStr (scan_risk_level scan));
              ("processing_time", JFloat (scan_processing_time scan));
              ("scan_date", JInt (scan_date scan));
              ("sensitive_items_count", JInt k);
              ("sensitive_items", JList (item_json Example.labels <$> rows))]))).
Proof.
  intros req results vd e.
  split; [exact example_store_ok|]. do 7 (split; [reflexivity|]).
  apply (backend_analysis_effect Example.one_email Example.labels req e 7 Example.doc7
           Example.doc7 results vd Example.alice);
    (exact example_store_ok) || reflexivity.
Defined.

Lemma analyze_keeps_store_in_order_witness :
  store_ok (db Example.env0) ∧
  store_ok (db (create Example.one_email Example.labels
                  (Example.ml_request 7 3 (Given [Example.email_item]))
                  Example.env0).1).
Proof.
  split; [exact example_store_ok|].
  apply (analyze_keeps_store_in_order Example.one_email Example.labels
           (Example.ml_request 7 3 (Given [Example.email_item]))
           Example.env0 example_store_ok).
Defined.

Lemma analyze_only_appends_witness :
  let req := Example.backend_request 9 Absent in
  store_ok (db Example.env0) ∧
  let e' := (create Example.one_email Example.labels req Example.env0).1 in
  grows (db Example.env0) (db e') ∧
  (∀ uid, uid ≠ user_id (request_user Example.env0) →
          users (db e') !! uid = users (db Example.env0) !! uid).
Proof.
  intros req. split; [exact example_store_ok|].
  apply (analyze_only_appends Example.one_email Example.labels req Example.env0
           example_store_ok).
Defined.

Lemma ml_counter_failure_keeps_scan_witness :
  let req := Example.ml_request 7 0 Absent in
  let vd := MLAnalysisPayloadSerializer.mkValidated 7 ["email"] 0 (1 # 2)%Q
              "ml_model" None in
  let e := mkEnv (mkUser 3 0 0 0 0 0) Example.store0 in
  MLAnalysisPayloadSerializer.run_validation req = inr vd ∧
  documents (db e) !! MLAnalysisPayloadSerializer.v_document_id vd
    = Some Example.doc7 ∧
  users (db e) !! user_id (request_user e) = None ∧
  ∃ e' resp scan,
    _handle_ml_payload req e = (e', inr resp) ∧
    status_code resp = HTTP_400_BAD_REQUEST ∧
    scans (db e') = scans (db e) ++ [scan] ∧
    scan_document scan = doc_id Example.doc7 ∧
    sensitive_information (db e')
      = sensitive_information (db e) ++ ml_rows (db e) Example.doc7 vd ∧
    doc_processed <$> documents (db e') !! doc_id Example.doc7 = Some true ∧
    users (db e') = users (db e).
Proof.
  intros req vd e. do 3 (split; [reflexivity|]).
  apply (ml_counter_failure_keeps_scan req vd e Example.doc7); reflexivity.
Defined.

(** An engine that answers for a document that is not stored. *)
Lemma backend_analysis_raises_for_unknown_result_document_witness :
  let engine : Store → Z → ServiceResults :=
    λ _ _, Results (mkResultData (Given 99) (Given "low") (Given 1%Q)
                                 (Given [])) in
  let req := Example.backend_request 7 Absent in
  let results := mkResultData (Given 99) (Given "low") (Given 1%Q) (Given []) in
  let vd := DetectionResultSerializer.mkValidated 99 "low" 1%Q [] in
  let e := Example.env0 in
  document_id req = Given 7 ∧
  documents (db e) !! 7 = Some Example.doc7 ∧
  doc_user Example.doc7 = user_id (request_user e) ∧
  engine (db e) 7 = Results results ∧
  DetectionResultSerializer.run_validation results = inr vd ∧
  documents (db e) !! DetectionResultSerializer.v_document_id vd = None ∧
  _handle_backend_analysis engine Example.labels req e = (e, inl DoesNotExist).
Proof.
  intros engine req results vd e. do 6 (split; [reflexivity|]).
  apply (backend_analysis_raises_for_unknown_result_document engine Example.labels req e 7
           Example.doc7 results vd); reflexivity.
Defined.

(** An ML payload for a document that is not in the store, and a request
    for a backend analysis of another user's document: both are answered
    400 and leave the store as it was. *)
Lemma refusals_write_nothing_witness :
  let missing := Example.ml_request 99 3 Absent in
  let foreign := Example.backend_request 8 Absent in
  let r1 := create Example.one_email Example.labels missing Example.env0 in
  let r2 := create Example.one_email Example.labels foreign Example.env0 in
  r1.1 = Example.env0 ∧ answered r1.2 = Some HTTP_400_BAD_REQUEST ∧
  r2.1 = Example.env0 ∧ answered r2.2 = Some HTTP_400_BAD_REQUEST.
Proof.
  intros missing foreign r1 r2.
  destruct (refusals_write_nothing Example.one_email Example.labels missing
              Example.env0) as (_ & Hmissing & _).
  destruct (Hmissing (MLAnalysisPayloadSerializer.mkValidated
                        99 ["email"] 3 (1 # 2)%Q "ml_model" None)
              eq_refl eq_refl eq_refl) as [body Hbody].
  destruct (refusals_write_nothing Example.one_email Example.labels foreign
              Example.env0) as (_ & _ & Hforeign & _).
  pose proof (Hforeign [("document_id",
                         "You don't have permission to analyze this document")]
                eq_refl eq_refl) as Hrefused.
  unfold r1, r2. rewrite Hbody, Hrefused. done.
Defined.

Lemma F_increments_add_up_witness :
  let w := Concurrent.mkWorld Example.store0 ∅ in
  let schedule := [Concurrent.Load 0%nat; Concurrent.Load 1%nat;
                   Concurrent.Run 0%nat; Concurrent.Run 1%nat] in
  consistent 1 w ∧
  Concurrent.counter_of sensitive_items_detected 1
    (Concurrent.run 1 (save_F_expression sensitive_items_detected 3)
       schedule w)
  = (λ v, v + Z.of_nat (Concurrent.executed (dom (Concurrent.objects w))
                          schedule) * 3)
      <$> Concurrent.counter_of sensitive_items_detected 1 w.
Proof.
  intros w schedule.
  assert (H : consistent 1 w).
  { split; [by exists Example.alice|]. intros i u Hu. by vm_compute in Hu. }
  split; [exact H|].
  exact (F_increments_add_up 1 sensitive_items_detected 3 schedule w H).
Defined.

End Instances.
